(** * The /quote ranking pipeline of backend/app/main.py

    A shallow embedding of the [quote] handler: request validation, weight
    resolution, the best_landing / best_fees aggregates, composite scoring,
    the stable descending sort and the top_n slice.

    Numbers.  The handler computes with Python [Decimal] and [float] values.
    The weights are resolved (lines 80-97) in binary64 floats, Rocq's
    primitive floats, with the IEEE operations Python uses.  Amounts, fees
    and scores are rationals ([Q]) with exact arithmetic and [Qeq] ([==]) as
    equality; the scoring reads each resolved weight by its exact value.
    [round(x, 6)] is rounding to the nearest multiple of 10^-6, ties to
    even.

    Helpers.  [compute_for_provider], [_normalize] and
    [compute_financial_score] are imported by main.py from the services
    module.  The pipeline is embedded inside a section that takes them as
    variables, functions that return normally, so every theorem about
    [quote] holds for any implementation of the three. *)

From Stdlib Require Import List String Ascii ZArith QArith Qround Qabs Qminmax Bool Lia Lqa.
From Stdlib Require Import Sorting.Sorted Sorting.Permutation.
From Stdlib Require Import Floats.
Import ListNotations.

#[local] Set Warnings "-inexact-float".

Open Scope string_scope.
Open Scope Q_scope.

(** ** Exceptions and the result monad *)

(** Built-in exceptions that both handlers can run into. *)
Inductive pyerror : Type :=
| TypeError
| AttributeError.

(** What [quote] can raise.  [NonFinite] is not a Python exception: it marks
    a run in which a resolved weight is inf or nan.  The handler carries
    such a weight on into nan scores; the scores are rationals here, and the
    model stops at that point. *)
Inductive exn : Type :=
| HTTPException (status_code : Z) (detail : string)
| ValueError
| ZeroDivisionError
| KeyError (key : string)
| OverflowError
| Builtin (e : pyerror)
| NonFinite.

Inductive result (A : Type) : Type :=
| Ok (a : A)
| Raise (e : exn).

Arguments Ok {A} a.
Arguments Raise {A} e.

Definition bind {A B : Type} (r : result A) (k : A -> result B) : result B :=
  match r with
  | Ok a => k a
  | Raise e => Raise e
  end.

Notation "x <- c ;; k" := (bind c (fun x => k))
  (at level 61, c at next level, right associativity).

(** ** Python built-ins used by the handler *)

(** [str.upper()], on ASCII letters. *)
Definition upper_ascii (c : ascii) : ascii :=
  let n := nat_of_ascii c in
  if (97 <=? n)%nat && (n <=? 122)%nat then ascii_of_nat (n - 32) else c.

Fixpoint upper (s : string) : string :=
  match s with
  | EmptyString => EmptyString
  | String c s' => String (upper_ascii c) (upper s')
  end.

(** A dict with string keys, in insertion order. *)
Definition dict (V : Type) : Type := list (string * V).

(** [d.get(k)], [None] when the key is absent. *)
Fixpoint dict_get {V : Type} (d : dict V) (k : string) : option V :=
  match d with
  | [] => None
  | (k', v) :: d' => if String.eqb k' k then Some v else dict_get d' k
  end.

(** [k in d]. *)
Definition dict_mem {V : Type} (d : dict V) (k : string) : bool :=
  match dict_get d k with
  | Some _ => true
  | None => false
  end.

(** [d[k]]: raises [KeyError] when the key is absent. *)
Definition getitem {V : Type} (d : dict V) (k : string) : result V :=
  match dict_get d k with
  | Some v => Ok v
  | None => Raise (KeyError k)
  end.

(** [d[k] = v] for a key that is already present: the value is replaced and
    the key keeps its position. *)
Fixpoint dict_set {V : Type} (d : dict V) (k : string) (v : V) : dict V :=
  match d with
  | [] => []
  | (k', v') :: d' =>
      if String.eqb k' k then (k', v) :: d' else (k', v') :: dict_set d' k v
  end.

Definition keys {V : Type} (d : dict V) : list string := map fst d.
Definition values {V : Type} (d : dict V) : list V := map snd d.

(** [sum(xs)]: left to right, starting from 0. *)
Definition sum (xs : list Q) : Q := fold_left Qplus xs 0.

(** [max(xs)]: the first maximal element; [ValueError] on an empty
    sequence. *)
Definition pymax (xs : list Q) : result Q :=
  match xs with
  | [] => Raise ValueError
  | x :: xs' => Ok (fold_left (fun m y => if Qlt_le_dec m y then y else m) xs' x)
  end.

(** [min(xs)] and [min(xs, default=d)]: the first minimal element; on an
    empty sequence the default, or [ValueError] when there is none. *)
Definition pymin (xs : list Q) (default : option Q) : result Q :=
  match xs, default with
  | x :: xs', _ =>
      Ok (fold_left (fun m y => if Qlt_le_dec y m then y else m) xs' x)
  | [], Some d => Ok d
  | [], None => Raise ValueError
  end.

(** [a / b]: [ZeroDivisionError] on a zero divisor. *)
Definition pydiv (a b : Q) : result Q :=
  if Qeq_bool b 0 then Raise ZeroDivisionError else Ok (a / b).

(** [round(x, 6)]: nearest multiple of 10^-6, ties to the even one. *)
Definition round_half_even (x : Q) : Z :=
  let n := Qfloor x in
  match Qcompare (x - inject_Z n) (1 # 2) with
  | Lt => n
  | Gt => (n + 1)%Z
  | Eq => if Z.even n then n else (n + 1)%Z
  end.

Definition round6 (x : Q) : Q :=
  Qmake (round_half_even (x * inject_Z 1000000)) 1000000.

(** [xs[:n]] with Python's slice rules: [None] keeps everything, a negative
    bound counts from the end. *)
Definition slice_to {A : Type} (xs : list A) (n : option Z) : list A :=
  match n with
  | None => xs
  | Some n =>
      if (n <? 0)%Z
      then firstn (Z.to_nat (Z.of_nat (List.length xs) + n)) xs
      else firstn (Z.to_nat n) xs
  end.

(** [sorted(xs, key=f)]: a stable sort, ascending in the key.  Insertion
    from the right end places each element before the first element whose
    key is not smaller, so elements with equal keys keep their order. *)
Fixpoint insert_by {A : Type} (key : A -> Q) (x : A) (l : list A) : list A :=
  match l with
  | [] => [x]
  | y :: l' =>
      if Qle_bool (key x) (key y) then x :: y :: l'
      else y :: insert_by key x l'
  end.

Fixpoint sorted {A : Type} (key : A -> Q) (l : list A) : list A :=
  match l with
  | [] => []
  | x :: l' => insert_by key x (sorted key l')
  end.

(** ** Floats *)

Definition binary64 : Set := PrimFloat.float.

(** The exact value of a finite float; inf and nan have none. *)
Definition exact (x : binary64) : option Q :=
  match Prim2SF x with
  | S754_zero _ => Some 0
  | S754_finite s m e =>
      let n := if s then Zneg m else Zpos m in
      Some (match e with
            | Z0 => n # 1
            | Zpos p => (n * Z.pow_pos 2 p) # 1
            | Zneg p => n # (Pos.pow 2 p)
            end)
  | S754_infinity _ | S754_nan => None
  end.

(** [float(n)] of an int: the nearest float, ties to even, and
    [OverflowError] when that is beyond the largest float. *)
Definition float_of_int (n : Z) : result binary64 :=
  match binary_normalize prec emax n 0 false with
  | S754_infinity _ => Raise OverflowError
  | sf => Ok (SF2Prim sf)
  end.

(** [sum(xs)] of floats: left to right, starting from 0 (CPython up to
    3.11; later versions compensate the rounding of a float sum). *)
Definition sum_floats (xs : list binary64) : binary64 :=
  fold_left PrimFloat.add xs 0%float.

(** A value of the request's [weights] dict, as the JSON decoder hands it
    over: a float (the literal [1e400] arrives as inf), an int, a bool, a
    str, [None], a list or a dict.  A str carries what [float()] reads from
    its text, [None] when the text is not a number. *)
Inductive pyvalue : Type :=
| PyFloat (x : binary64)
| PyInt (n : Z)
| PyBool (b : bool)
| PyStr (s : string) (parsed : option binary64)
| PyNone
| PyList
| PyDict.

(** [float(v)]. *)
Definition float (v : pyvalue) : result binary64 :=
  match v with
  | PyFloat x => Ok x
  | PyInt n => float_of_int n
  | PyBool b => Ok (if b then 1%float else 0%float)
  | PyStr _ (Some x) => Ok x
  | PyStr _ None => Raise ValueError
  | PyNone | PyList | PyDict => Raise (Builtin TypeError)
  end.

(** ** Data model *)

(** The six component scores attached to a ranked candidate. *)
Record ComponentScores : Type := {
  financial : Q;
  trust : Q;
  service : Q;
  customer_satisfaction : Q;
  reliability : Q;
  speed : Q
}.

(** The request body of POST /quote.  [req_weights] is the [weights] field
    after the handler's [isinstance(req.weights, dict)] test. *)
Record QuoteRequest : Type := {
  from_currency : string;
  to_currency : string;
  amount : Q;
  criteria : option (list string);
  top_n : option Z;
  req_weights : option (dict pyvalue)
}.

(** Lines 80-87. *)
Definition default_weights : dict binary64 :=
  [("fees_fx", 0.5%float); ("trust", 0.15%float); ("service", 0.15%float);
   ("customer_satisfaction", 0.1%float); ("reliability", 0.06%float);
   ("speed", 0.04%float)].

(** Lines 91-93: the loop over [req_weights.items()]. *)
Fixpoint merge_items (merged : dict binary64) (items : dict pyvalue)
  : result (dict binary64) :=
  match items with
  | [] => Ok merged
  | (k, v) :: rest =>
      if dict_mem merged k
      then x <- float v ;; merge_items (dict_set merged k x) rest
      else merge_items merged rest
  end.

(** Line 94: [sum(merged.values()) or 1.0].  A float is falsy when it
    equals 0, which -0.0 does and nan does not. *)
Definition total (merged : dict binary64) : binary64 :=
  let s := sum_floats (values merged) in
  if PrimFloat.eqb s 0%float then 1%float else s.

(** Lines 88-97: the resolved weights, as floats.  An absent or empty dict
    is falsy and selects the defaults. *)
Definition float_weights (req_weights : option (dict pyvalue))
  : result (dict binary64) :=
  match req_weights with
  | Some ((_ :: _) as items) =>
      merged <- merge_items default_weights items ;;
      Ok (map (fun kv => (fst kv, PrimFloat.div (snd kv) (total merged))) merged)
  | _ => Ok default_weights
  end.

(** The exact value of a weight, for the scoring. *)
Definition rational (x : binary64) : result Q :=
  match exact x with
  | Some q => Ok q
  | None => Raise NonFinite
  end.

Fixpoint rationals (d : dict binary64) : result (dict Q) :=
  match d with
  | [] => Ok []
  | (k, x) :: d' =>
      q <- rational x ;;
      rest <- rationals d' ;;
      Ok ((k, q) :: rest)
  end.

(** The resolved weights as the scoring reads them: each float by its exact
    value. *)
Definition weights (req_weights : option (dict pyvalue)) : result (dict Q) :=
  w <- float_weights req_weights ;;
  rationals w.

(** The weighted sum of section 4.5, written with the weights as numbers:
    the specification's [composite], compared below with what the handler
    reads out of the weights dict. *)
Definition weighted_sum_spec
    (w_fees_fx w_trust w_service w_cust w_reliability w_speed : Q)
    (financial_score trust_n service_n cust_n reliability_n speed_n : Q) : Q :=
  w_fees_fx * financial_score + w_trust * trust_n + w_service * service_n
  + w_cust * cust_n + w_reliability * reliability_n + w_speed * speed_n.

(** ** The handler *)

Section Quote.

(** Types the handler only passes along: a provider's [fee_rules] and the
    [fee_breakdown] computed from them. *)
Variable FeeRules : Type.
Variable FeeBreakdown : Type.

(** A row of the providers table, as the handler reads it. *)
Record Provider : Type := {
  Provider_id : Z;
  Provider_code : string;
  Provider_name : string;
  Provider_country : string;
  Provider_fee_rules : FeeRules;
  Provider_notes : string;
  Provider_trust_score : Q;
  Provider_service_quality : Q;
  Provider_customer_satisfaction : Q;
  Provider_reliability : Q;
  Provider_speed_score : Q
}.

(** The dict returned by [compute_for_provider]. *)
Record FeeModelResult : Type := {
  res_landing : Q;
  res_effective_rate : Q;
  res_fees : Q;
  res_fee_breakdown : FeeBreakdown
}.

(** An entry of [numeric_results] (lines 68-78). *)
Record NumericResult : Type := {
  provider_id : Z;
  code : string;
  name : string;
  country : string;
  landing : Q;
  effective_rate : Q;
  fees : Q;
  fee_breakdown : FeeBreakdown;
  notes : string
}.

(** An entry of [augmented] (lines 128-139): the matched numeric result
    with its component scores and composite score. *)
Record Scored : Type := {
  numeric : NumericResult;
  component_scores : ComponentScores;
  composite_score : Q
}.

(** The JSON object returned by the handler (line 143). *)
Record QuoteResponse : Type := {
  resp_from : string;
  resp_to : string;
  resp_amount : Q;
  resp_rate : Q;
  results : list Scored;
  resp_weights : dict Q
}.

(** The three helpers imported from the services module, and the rate
    source: [get_live_rates base] stands for the ["rates"] entry of the
    JSON it returns, the empty dict when that entry is missing. *)
Variable compute_for_provider : Q -> Q -> FeeRules -> FeeModelResult.
Variable _normalize : Q -> Q.
Variable compute_financial_score : Q -> Q -> Q -> Q -> Q.
Variable get_live_rates : string -> dict Q.

(** Lines 65-78. *)
Definition numeric_results (amount rate : Q) (providers : list Provider)
  : list NumericResult :=
  map (fun p =>
         let res := compute_for_provider amount rate (Provider_fee_rules p) in
         {| provider_id := Provider_id p;
            code := Provider_code p;
            name := Provider_name p;
            country := Provider_country p;
            landing := res_landing res;
            effective_rate := res_effective_rate res;
            fees := res_fees res;
            fee_breakdown := res_fee_breakdown res;
            notes := Provider_notes p |})
      providers.

(** Line 99. *)
Definition best_landing (nr : list NumericResult) : result Q :=
  match nr with
  | [] => Ok 0
  | _ :: _ => pymax (map landing nr)
  end.

(** Lines 100-102. *)
Definition best_fees (nr : list NumericResult) : result Q :=
  best <- match nr with
          | [] => Ok 0
          | _ :: _ => pymin (map fees nr) None
          end ;;
  if Qeq_bool best 0
  then pymin (map fees (filter (fun r => negb (Qle_bool (fees r) 0)) nr))
             (Some 1)
  else Ok best.

(** Lines 119-126: the weighted sum, read from the weights dict. *)
Definition composite (w : dict Q)
    (financial_score trust_n service_n cust_n reliability_n speed_n : Q)
  : result Q :=
  w_fees_fx <- getitem w "fees_fx" ;;
  w_trust <- getitem w "trust" ;;
  w_service <- getitem w "service" ;;
  w_cust <- getitem w "customer_satisfaction" ;;
  w_reliability <- getitem w "reliability" ;;
  w_speed <- getitem w "speed" ;;
  Ok (w_fees_fx * financial_score +
      w_trust * trust_n +
      w_service * service_n +
      w_cust * cust_n +
      w_reliability * reliability_n +
      w_speed * speed_n).

(** Lines 106-139: one iteration of the scoring loop.  [None] is the
    [continue] taken when no numeric result carries the provider's code. *)
Definition score_provider (w : dict Q) (nr : list NumericResult)
    (bl bf : Q) (p : Provider) : result (option Scored) :=
  match find (fun x => String.eqb (code x) (Provider_code p)) nr with
  | None => Ok None
  | Some m =>
      let financial_score :=
        compute_financial_score (landing m) (fees m) bl bf in
      let trust_n := _normalize (Provider_trust_score p) in
      let service_n := _normalize (Provider_service_quality p) in
      let cust_n := _normalize (Provider_customer_satisfaction p) in
      let reliability_n := _normalize (Provider_reliability p) in
      let speed_n := _normalize (Provider_speed_score p) in
      c <- composite w financial_score trust_n service_n cust_n
             reliability_n speed_n ;;
      Ok (Some {| numeric := m;
                  component_scores :=
                    {| financial := round6 financial_score;
                       trust := round6 trust_n;
                       service := round6 service_n;
                       customer_satisfaction := round6 cust_n;
                       reliability := round6 reliability_n;
                       speed := round6 speed_n |};
                  composite_score := round6 c |})
  end.

(** Lines 104-139: the loop over the providers. *)
Fixpoint augmented (w : dict Q) (nr : list NumericResult) (bl bf : Q)
    (providers : list Provider) : result (list Scored) :=
  match providers with
  | [] => Ok []
  | p :: ps =>
      r <- score_provider w nr bl bf p ;;
      rest <- augmented w nr bl bf ps ;;
      Ok (match r with
          | Some s => s :: rest
          | None => rest
          end)
  end.

(** Line 141. *)
Definition results_sorted (aug : list Scored) : list Scored :=
  sorted (fun x => - composite_score x) aug.

(** Lines 47-143.  [providers] is what [db.query(Provider).all()]
    returned. *)
Definition quote (providers : list Provider) (req : QuoteRequest)
  : result QuoteResponse :=
  let from_cur := upper (from_currency req) in
  let to_cur := upper (to_currency req) in
  let amount := amount req in
  if Qle_bool amount 0
  then Raise (HTTPException 400 "amount must be > 0")
  else
    match providers with
    | [] => Raise (HTTPException 500 "no providers available")
    | _ :: _ =>
        let rates := get_live_rates from_cur in
        match dict_get rates to_cur with
        | None =>
            Raise (HTTPException 400
                     ("currency pair " ++ from_cur ++ "->" ++ to_cur
                      ++ " not available"))
        | Some rate =>
            let nr := numeric_results amount rate providers in
            w <- weights (req_weights req) ;;
            bl <- best_landing nr ;;
            bf <- best_fees nr ;;
            aug <- augmented w nr bl bf providers ;;
            let top := slice_to (results_sorted aug) (top_n req) in
            Ok {| resp_from := from_cur;
                  resp_to := to_cur;
                  resp_amount := amount;
                  resp_rate := rate;
                  results := top;
                  resp_weights := w |}
        end
    end.

(** What one iteration of the scoring loop appends for provider [p]: the
    entry [s], with the weights it read and the scores it rounded. *)
Definition scored_as (w : dict Q) (nr : list NumericResult) (bl bf : Q)
    (p : Provider) (s : Scored) : Prop :=
  exists w_fees_fx w_trust w_service w_cust w_reliability w_speed,
    dict_get w "fees_fx" = Some w_fees_fx /\
    dict_get w "trust" = Some w_trust /\
    dict_get w "service" = Some w_service /\
    dict_get w "customer_satisfaction" = Some w_cust /\
    dict_get w "reliability" = Some w_reliability /\
    dict_get w "speed" = Some w_speed /\
    find (fun x => String.eqb (code x) (Provider_code p)) nr = Some (numeric s) /\
    let financial_score :=
      compute_financial_score (landing (numeric s)) (fees (numeric s)) bl bf in
    let trust_n := _normalize (Provider_trust_score p) in
    let service_n := _normalize (Provider_service_quality p) in
    let cust_n := _normalize (Provider_customer_satisfaction p) in
    let reliability_n := _normalize (Provider_reliability p) in
    let speed_n := _normalize (Provider_speed_score p) in
    composite w financial_score trust_n service_n cust_n reliability_n speed_n
    = Ok (weighted_sum_spec w_fees_fx w_trust w_service w_cust w_reliability
            w_speed financial_score trust_n service_n cust_n reliability_n
            speed_n) /\
    component_scores s
    = {| financial := round6 financial_score;
         trust := round6 trust_n;
         service := round6 service_n;
         customer_satisfaction := round6 cust_n;
         reliability := round6 reliability_n;
         speed := round6 speed_n |} /\
    composite_score s
    = round6 (weighted_sum_spec w_fees_fx w_trust w_service w_cust
                w_reliability w_speed financial_score trust_n service_n
                cust_n reliability_n speed_n).

End Quote.

Arguments Provider_id {FeeRules} _.
Arguments Provider_code {FeeRules} _.
Arguments Provider_name {FeeRules} _.
Arguments Provider_country {FeeRules} _.
Arguments Provider_fee_rules {FeeRules} _.
Arguments Provider_notes {FeeRules} _.
Arguments Provider_trust_score {FeeRules} _.
Arguments Provider_service_quality {FeeRules} _.
Arguments Provider_customer_satisfaction {FeeRules} _.
Arguments Provider_reliability {FeeRules} _.
Arguments Provider_speed_score {FeeRules} _.
Arguments res_landing {FeeBreakdown} _.
Arguments res_effective_rate {FeeBreakdown} _.
Arguments res_fees {FeeBreakdown} _.
Arguments res_fee_breakdown {FeeBreakdown} _.
Arguments provider_id {FeeBreakdown} _.
Arguments code {FeeBreakdown} _.
Arguments name {FeeBreakdown} _.
Arguments country {FeeBreakdown} _.
Arguments landing {FeeBreakdown} _.
Arguments effective_rate {FeeBreakdown} _.
Arguments fees {FeeBreakdown} _.
Arguments fee_breakdown {FeeBreakdown} _.
Arguments notes {FeeBreakdown} _.
Arguments numeric {FeeBreakdown} _.
Arguments component_scores {FeeBreakdown} _.
Arguments composite_score {FeeBreakdown} _.
Arguments resp_from {FeeBreakdown} _.
Arguments resp_to {FeeBreakdown} _.
Arguments resp_amount {FeeBreakdown} _.
Arguments resp_rate {FeeBreakdown} _.
Arguments results {FeeBreakdown} _.
Arguments resp_weights {FeeBreakdown} _.
Arguments numeric_results {FeeRules FeeBreakdown} _ _ _ _.
Arguments best_landing {FeeBreakdown} _.
Arguments best_fees {FeeBreakdown} _.
Arguments score_provider {FeeRules FeeBreakdown} _ _ _ _ _ _ _.
Arguments augmented {FeeRules FeeBreakdown} _ _ _ _ _ _ _.
Arguments results_sorted {FeeBreakdown} _.
Arguments quote {FeeRules FeeBreakdown} _ _ _ _ _ _.
Arguments scored_as {FeeRules FeeBreakdown} _ _ _ _ _ _ _ _.

(** ** The services module, from the specification

    main.py imports its three helpers from the services module, which is
    not among the sources.  The definitions below follow sections 4.1 to
    4.3 of the specification. *)

(** Modelled from the spec: "clamped into [[0, 1]]", the clamp shared by the
    normalizer and the sub-scorer (both are missing with the services
    module). *)
Definition clamp01 (x : Q) : Q := Qmax 0 (Qmin 1 x).

(** Modelled from the spec: the Metric Normalizer of section 4.2
    ([_normalize] of the services module is missing).  A linear rescale
    from the raw scale [[lo, hi]] to [[0, 1]], clamped at both ends. *)
Definition normalize_spec (lo hi raw : Q) : Q :=
  clamp01 ((raw - lo) / (hi - lo)).

(** Modelled from the spec: the Financial Sub-Scorer of section 4.3
    ([compute_financial_score] of the services module is missing):
    [0.5 * (landing / best_landing) + 0.5 * (best_fees / max(fees, epsilon))]
    clamped into [[0, 1]], the landing ratio replaced by a fixed neutral
    value when [best_landing] is 0.  The neutral value and epsilon are left
    open by the specification and are parameters here. *)
Definition financial_score_spec (neutral epsilon : Q)
    (landing fees best_landing best_fees : Q) : result Q :=
  landing_ratio <- (if Qeq_bool best_landing 0
                    then Ok neutral
                    else pydiv landing best_landing) ;;
  fee_ratio <- pydiv best_fees (Qmax fees epsilon) ;;
  Ok (clamp01 (0.5 * landing_ratio + 0.5 * fee_ratio)).

(** Modelled from the spec: the fee rule set of section 3 and the FeeModel
    Evaluator of section 4.1 ([compute_for_provider] of the services module
    is missing).  A fixed fee, a percentage fee clamped to its declared
    bounds, and an fx margin taken off the spot rate; the landing amount is
    [max(0, amount - total_fees) * effective_rate]. *)
Record FeeRulesSpec : Type := {
  fixed_fee : Q;
  rate_pct : Q;
  pct_min : option Q;
  pct_max : option Q;
  fx_margin : Q
}.

(** Modelled from the spec: "clamped to any declared min/max" of section
    4.1 (part of the missing evaluator). *)
Definition clamp_opt (lo hi : option Q) (x : Q) : Q :=
  let x := match lo with Some l => Qmax l x | None => x end in
  match hi with Some h => Qmin h x | None => x end.

(** Modelled from the spec: [evaluate] of section 4.1, standing in for the
    missing [compute_for_provider]. *)
Definition evaluate_spec (amount spot_rate : Q) (rules : FeeRulesSpec)
  : FeeModelResult (dict Q) :=
  let effective := spot_rate * (1 - fx_margin rules) in
  let breakdown :=
    [("fixed_fee", fixed_fee rules);
     ("percentage_fee",
      clamp_opt (pct_min rules) (pct_max rules) (rate_pct rules * amount))] in
  let total_fees := sum (values breakdown) in
  {| res_landing := Qmax 0 (amount - total_fees) * effective;
     res_effective_rate := effective;
     res_fees := total_fees;
     res_fee_breakdown := breakdown |}.

(** The sub-scorer of the specification as a total function, for running
    the handler: neutral value 1/2, epsilon 10^-9. *)
Definition financial_score_total (landing fees best_landing best_fees : Q) : Q :=
  match financial_score_spec 0.5 (1 # 1000000000)
          landing fees best_landing best_fees with
  | Ok v => v
  | Raise _ => 0
  end.

(** The handler run with the helpers of the specification, quality metrics
    on the scale 0-100. *)
Definition quote_spec (get_live_rates : string -> dict Q)
    (providers : list (Provider FeeRulesSpec)) (req : QuoteRequest)
  : result (QuoteResponse (dict Q)) :=
  quote evaluate_spec (normalize_spec 0 100) financial_score_total
        get_live_rates providers req.

(** The relations the ranking is stated with: [a] may stand before [b] in a
    list ordered descending by composite score, and [s] has composite score
    [k]. *)
Definition descending {B : Type} (a b : Scored B) : Prop :=
  composite_score b <= composite_score a.

Definition has_score {B : Type} (k : Q) (s : Scored B) : bool :=
  Qeq_bool (composite_score s) k.

(** [l1] is an initial segment of [l2]. *)
Definition prefix {A : Type} (l1 l2 : list A) : Prop :=
  exists rest, l2 = (l1 ++ rest)%list.

(** ** Sample data

    The scenario of section 8 of the specification: amount 1000 at spot
    rate 1.10, provider P1 with a fixed fee of 5 and metrics 80/100,
    provider P2 with a 1% fx margin and metrics 60/100. *)

Definition sample_provider (id : Z) (code : string) (fixed margin quality : Q)
  : Provider FeeRulesSpec :=
  {| Provider_id := id;
     Provider_code := code;
     Provider_name := code;
     Provider_country := "US";
     Provider_fee_rules :=
       {| fixed_fee := fixed; rate_pct := 0; pct_min := None; pct_max := None;
          fx_margin := margin |};
     Provider_notes := "";
     Provider_trust_score := quality;
     Provider_service_quality := quality;
     Provider_customer_satisfaction := quality;
     Provider_reliability := quality;
     Provider_speed_score := quality |}.

Definition sample_providers : list (Provider FeeRulesSpec) :=
  [sample_provider 1 "P1" 5 0 80; sample_provider 2 "P2" 0 0.01 60].

Definition sample_rates (base : string) : dict Q :=
  [("EUR", 1.10); ("INR", 83.2)].

Definition sample_request (top_n : option Z) (w : option (dict pyvalue))
  : QuoteRequest :=
  {| from_currency := "usd";
     to_currency := "eur";
     amount := 1000;
     criteria := Some ["best_landing"; "lowest_fees"];
     top_n := top_n;
     req_weights := w |}.

(** Two providers with the same fees whose composites differ by less than
    10^-6, the second one being the better by a hair. *)
Definition close_providers : list (Provider FeeRulesSpec) :=
  [sample_provider 1 "A" 5 0 80; sample_provider 2 "B" 5 0 80.000001].





(** ** The /ai/recommend handler

    Lines 145-172.  The handler reads four entries of the quote payload,
    writes one summary line per result and hands the prompt to the model
    router.  [call_all_models] and [deterministic_merge] belong to the
    llm_router module and are variables of the section, like Python's
    [str()], which the f-strings apply to every value they print. *)

(** A JSON value of the request body. *)
Inductive json : Type :=
| JNull
| JBool (b : bool)
| JNum (q : Q)
| JStr (s : string)
| JArr (items : list json)
| JObj (fields : list (string * json)).

(** The outcome of the handler: a value, or one of the built-in
    exceptions. *)
Inductive attempt (A : Type) : Type :=
| Returns (a : A)
| Throws (e : pyerror).

Arguments Returns {A} a.
Arguments Throws {A} e.

(** [d.get(k)], which is [None] for a missing key, and
    [d.get(k, default)]. *)
Definition get_default (d : dict json) (k : string) (default : json) : json :=
  match dict_get d k with
  | Some v => v
  | None => default
  end.

Definition get (d : dict json) (k : string) : json := get_default d k JNull.

(** [r.get(k)] on an arbitrary value: only a dict has the method. *)
Definition value_get (r : json) (k : string) : attempt json :=
  match r with
  | JObj d => Returns (get d k)
  | _ => Throws AttributeError
  end.

(** What [for r in v] runs through: the items of a list, the characters of
    a string, the keys of a dict; the other values are not iterable. *)
Definition iterate (v : json) : attempt (list json) :=
  match v with
  | JArr items => Returns items
  | JStr s => Returns (map (fun c => JStr (String c EmptyString))
                           (list_ascii_of_string s))
  | JObj d => Returns (map (fun kv => JStr (fst kv)) d)
  | JNull | JBool _ | JNum _ => Throws TypeError
  end.

Definition newline : string := String (ascii_of_nat 10) EmptyString.

(** [sep.join(lines)]. *)
Definition join (sep : string) (lines : list string) : string :=
  String.concat sep lines.

(** The request body of POST /ai/recommend. *)
Record AIRequest : Type := {
  quote_payload : dict json;
  user_intent : option string;
  provider_codes : option (list string)
}.

Section AiRecommend.

Variable ModelResults : Type.
Variable Merged : Type.
Variable str : json -> string.
Variable call_all_models : string -> ModelResults.
Variable deterministic_merge : ModelResults -> Merged.

(** Line 155: the summary line of one result. *)
Definition summary_line (to_cur : json) (r : json) : attempt string :=
  match value_get r "code" with
  | Throws e => Throws e
  | Returns code =>
  match value_get r "landing" with
  | Throws e => Throws e
  | Returns landing =>
  match value_get r "fees" with
  | Throws e => Throws e
  | Returns fees =>
  match value_get r "effective_rate" with
  | Throws e => Throws e
  | Returns fx =>
      Returns ("- " ++ str code ++ " | landing=" ++ str landing ++ " "
               ++ str to_cur ++ " | fees=" ++ str fees ++ " | fx=" ++ str fx)
  end end end end.

(** Lines 154-155: the loop appending to [summary_lines]. *)
Fixpoint append_lines (to_cur : json) (summary_lines : list string)
    (results : list json) : attempt (list string) :=
  match results with
  | [] => Returns summary_lines
  | r :: rest =>
      match summary_line to_cur r with
      | Throws e => Throws e
      | Returns line => append_lines to_cur (summary_lines ++ [line])%list rest
      end
  end.

(** Lines 147-155. *)
Definition summary_lines (req : AIRequest) : attempt (list string) :=
  let quote := match quote_payload req with
               | [] => []
               | _ :: _ => quote_payload req
               end in
  let from_cur := get quote "from" in
  let to_cur := get quote "to" in
  let amount := get quote "amount" in
  let results := get_default quote "results" (JArr []) in
  let header := "Transfer " ++ str amount ++ " " ++ str from_cur ++ " -> "
                ++ str to_cur ++ ". Providers:" in
  match iterate results with
  | Throws e => Throws e
  | Returns rs => append_lines to_cur [header] rs
  end.

(** Lines 157-169: the prompt around the summary text.  An absent
    [user_intent] prints as [None]. *)
Definition prompt (intent : option string) (summary_text : string) : string :=
  "You are an assistant that compares transfer channels." ++ newline
  ++ "User intent: "
  ++ match intent with Some s => s | None => "None" end ++ newline
  ++ newline
  ++ "Numeric summary:" ++ newline
  ++ summary_text ++ newline
  ++ newline
  ++ "Please:" ++ newline
  ++ "1) Recommend the best channel (single-line)." ++ newline
  ++ "2) Give a brief explanation of tradeoffs (2-4 bullets)." ++ newline
  ++ "3) If applicable, call out any assumptions." ++ newline
  ++ newline
  ++ "Answer succinctly." ++ newline.

(** The dict the handler returns. *)
Record AIResponse : Type := {
  model_results : ModelResults;
  merged : Merged
}.

(** Lines 146-172. *)
Definition ai_recommend (req : AIRequest) : attempt AIResponse :=
  match summary_lines req with
  | Throws e => Throws e
  | Returns lines =>
      let summary_text := join newline lines in
      let model_results := call_all_models (prompt (user_intent req) summary_text) in
      Returns {| model_results := model_results;
                 merged := deterministic_merge model_results |}
  end.

End AiRecommend.

Arguments model_results {ModelResults Merged} _.
Arguments merged {ModelResults Merged} _.
Arguments ai_recommend {ModelResults Merged} _ _ _ _.


(** Two providers under one code. *)
Definition same_code_providers : list (Provider FeeRulesSpec) :=
  [sample_provider 1 "P1" 5 0 80; sample_provider 2 "P1" 0 0.01 60].

(** Two providers that both charge a fee. *)
Definition paying_providers : list (Provider FeeRulesSpec) :=
  [sample_provider 1 "P1" 5 0 80; sample_provider 2 "P3" 3 0 70].

(** A rendering of JSON values for running /ai/recommend: strings print as
    themselves, an absent value as [None]. *)
Definition sample_str (v : json) : string :=
  match v with
  | JStr s => s
  | JNull => "None"
  | JBool true => "True"
  | JBool false => "False"
  | _ => "#"
  end.

Definition sample_payload (extra : dict json) : dict json :=
  [("from", JStr "USD"); ("to", JStr "EUR"); ("amount", JStr "1000.0");
   ("results",
    JArr [JObj ([("code", JStr "P1"); ("landing", JStr "1094.5");
                 ("fees", JStr "5.0"); ("effective_rate", JStr "1.1")]
                ++ extra)%list])].

Definition sample_ai_request (payload : dict json) : AIRequest :=
  {| quote_payload := payload;
     user_intent := None;
     provider_codes := None |}.

(** * Facts about the built-ins *)

(** [round(x, 6)] is within half a unit in the sixth place of [x]. *)
Lemma round_half_even_close (x : Q) :
  Qabs (inject_Z (round_half_even x) - x) <= 1 # 2.
Proof.
  unfold round_half_even.
  pose proof (Qfloor_le x) as Hlo.
  pose proof (Qlt_floor x) as Hhi.
  rewrite inject_Z_plus in Hhi.
  change (inject_Z 1) with 1 in Hhi.
  generalize dependent (Qfloor x). intros n Hlo Hhi.
  apply Qabs_Qle_condition.
  destruct (Qcompare (x - inject_Z n) (1 # 2)) eqn:E.
  - apply Qeq_alt in E.
    destruct (Z.even n); [|rewrite inject_Z_plus; change (inject_Z 1) with 1];
      split; lra.
  - apply Qlt_alt in E. split; lra.
  - apply Qgt_alt in E. rewrite inject_Z_plus. change (inject_Z 1) with 1.
    split; lra.
Qed.

Lemma round6_close (x : Q) : Qabs (round6 x - x) <= 1 # 2000000.
Proof.
  pose proof (round_half_even_close (x * inject_Z 1000000)) as H.
  apply Qabs_Qle_condition in H. apply Qabs_Qle_condition.
  unfold round6.
  set (z := round_half_even (x * inject_Z 1000000)) in *.
  assert (Hz : Qmake z 1000000 == inject_Z z * (1 # 1000000)).
  { unfold Qeq. simpl. lia. }
  rewrite Hz.
  replace (inject_Z 1000000) with (1000000 # 1) in H by reflexivity.
  split; lra.
Qed.

Example round6_down : round6 (1 # 3) = 0.333333.
Proof. reflexivity. Qed.

Example round6_tie_to_even :
  round6 (5 # 10000000) = 0.000000 /\ round6 (15 # 10000000) = 0.000002.
Proof. split; reflexivity. Qed.

Example slice_to_examples :
  slice_to [1; 2; 3]%Z (Some 2%Z) = [1; 2]%Z /\
  slice_to [1; 2; 3]%Z (Some 5%Z) = [1; 2; 3]%Z /\
  slice_to [1; 2; 3]%Z (Some (-1)%Z) = [1; 2]%Z /\
  slice_to [1; 2; 3]%Z None = [1; 2; 3]%Z.
Proof. repeat split. Qed.

Example sorted_is_stable :
  sorted snd [("a", 2); ("b", 1); ("c", 2); ("d", 1)]
  = [("b", 1); ("d", 1); ("a", 2); ("c", 2)].
Proof. reflexivity. Qed.

Example upper_example : upper "usd" = "USD".
Proof. reflexivity. Qed.

Section SortedFacts.

Context {A : Type} (key : A -> Q).

Let key_le (a b : A) : Prop := key a <= key b.

Lemma insert_by_perm (x : A) (l : list A) :
  Permutation (insert_by key x l) (x :: l).
Proof.
  induction l as [|y l IH]; simpl.
  - apply Permutation_refl.
  - destruct (Qle_bool (key x) (key y)).
    + apply Permutation_refl.
    + eapply perm_trans; [apply perm_skip, IH | apply perm_swap].
Qed.

Lemma sorted_perm (l : list A) : Permutation (sorted key l) l.
Proof.
  induction l as [|x l IH]; simpl.
  - constructor.
  - eapply perm_trans; [apply insert_by_perm | now apply perm_skip].
Qed.

Lemma sorted_length (l : list A) : List.length (sorted key l) = List.length l.
Proof. apply Permutation_length, sorted_perm. Qed.

Lemma insert_by_sorted (x : A) (l : list A) :
  StronglySorted key_le l -> StronglySorted key_le (insert_by key x l).
Proof.
  induction 1 as [|y l Hs IH Hy]; simpl.
  - repeat constructor.
  - destruct (Qle_bool (key x) (key y)) eqn:E.
    + apply Qle_bool_iff in E.
      constructor; [now constructor|].
      constructor; [exact E|].
      eapply Forall_impl; [|exact Hy].
      intros z Hz. unfold key_le in *. now apply Qle_trans with (key y).
    + assert (Hlt : key y <= key x).
      { destruct (Qlt_le_dec (key y) (key x)) as [H|H].
        - now apply Qlt_le_weak.
        - apply Qle_bool_iff in H. congruence. }
      constructor; [exact IH|].
      eapply Permutation_Forall;
        [apply Permutation_sym, insert_by_perm|].
      now constructor.
Qed.

Lemma sorted_sorted (l : list A) : StronglySorted key_le (sorted key l).
Proof.
  induction l as [|x l IH]; simpl.
  - constructor.
  - now apply insert_by_sorted.
Qed.

(** Stability: a class of elements with pairwise equal keys is not
    reordered. *)
Variable f : A -> bool.
Hypothesis f_class : forall a b, f a = true -> f b = true -> key a == key b.

Lemma insert_by_filter (x : A) (l : list A) :
  filter f (insert_by key x l) = filter f (x :: l).
Proof.
  induction l as [|y l IH]; [reflexivity|].
  simpl insert_by.
  destruct (Qle_bool (key x) (key y)) eqn:E; [reflexivity|].
  simpl filter in *. rewrite IH.
  destruct (f x) eqn:Fx, (f y) eqn:Fy; try reflexivity.
  exfalso.
  assert (H : key x <= key y) by (rewrite (f_class x y Fx Fy); apply Qle_refl).
  apply Qle_bool_iff in H. congruence.
Qed.

Lemma sorted_filter (l : list A) : filter f (sorted key l) = filter f l.
Proof.
  induction l as [|x l IH]; [reflexivity|].
  simpl sorted. rewrite insert_by_filter. simpl. now rewrite IH.
Qed.

End SortedFacts.

Section SliceFacts.

Context {A : Type}.

Lemma firstn_prefix (n : nat) (l : list A) : prefix (firstn n l) l.
Proof. exists (skipn n l). symmetry. apply firstn_skipn. Qed.

Lemma slice_to_prefix (l : list A) (n : option Z) : prefix (slice_to l n) l.
Proof.
  destruct n as [n|]; simpl.
  - destruct (n <? 0)%Z; apply firstn_prefix.
  - exists []. symmetry. apply app_nil_r.
Qed.

Lemma prefix_filter (f : A -> bool) (l1 l2 : list A) :
  prefix l1 l2 -> prefix (filter f l1) (filter f l2).
Proof.
  intros [rest ->]. exists (filter f rest). apply filter_app.
Qed.

Lemma prefix_In (l1 l2 : list A) (x : A) : prefix l1 l2 -> In x l1 -> In x l2.
Proof. intros [rest ->] H. apply in_or_app. now left. Qed.

Lemma prefix_sorted (R : A -> A -> Prop) (l1 l2 : list A) :
  prefix l1 l2 -> StronglySorted R l2 -> StronglySorted R l1.
Proof.
  intros [rest ->]. induction l1 as [|x l1 IH]; simpl; intros H.
  - constructor.
  - inversion H as [|? ? Hs Hf]; subst.
    constructor; [now apply IH|].
    apply Forall_app in Hf. tauto.
Qed.

Lemma slice_to_length (l : list A) (n : Z) :
  (0 < n)%Z ->
  List.length (slice_to l (Some n)) = Nat.min (Z.to_nat n) (List.length l).
Proof.
  intros Hn. simpl.
  destruct (n <? 0)%Z eqn:E; [apply Z.ltb_lt in E; lia|].
  apply length_firstn.
Qed.

End SliceFacts.

Section DictFacts.

Context {V : Type}.

Lemma dict_get_In_keys (d : dict V) (k : string) :
  In k (keys d) <-> exists v, dict_get d k = Some v.
Proof.
  induction d as [|[k' v'] d IH]; simpl.
  - split; [tauto | intros [v H]; discriminate].
  - destruct (String.eqb_spec k' k) as [->|Hne].
    + split; [eauto | auto].
    + rewrite <- IH. split; [intros [H|H]; [congruence | exact H] | auto].
Qed.

Lemma dict_mem_keys (d : dict V) (k : string) :
  dict_mem d k = true <-> In k (keys d).
Proof.
  unfold dict_mem. rewrite dict_get_In_keys.
  destruct (dict_get d k) as [v|].
  - split; eauto.
  - split; [discriminate | intros [v H]; discriminate].
Qed.

Lemma dict_set_keys (d : dict V) (k : string) (v : V) :
  keys (dict_set d k v) = keys d.
Proof.
  induction d as [|[k' v'] d IH]; simpl; [reflexivity|].
  destruct (String.eqb k' k); simpl; [reflexivity | now rewrite IH].
Qed.

Lemma dict_get_set_same (d : dict V) (k : string) (v : V) :
  dict_mem d k = true -> dict_get (dict_set d k v) k = Some v.
Proof.
  unfold dict_mem.
  induction d as [|[k' v'] d IH]; simpl; [discriminate|].
  destruct (String.eqb k' k) eqn:E; simpl; rewrite E; auto.
Qed.

Lemma dict_get_set_other (d : dict V) (k k' : string) (v : V) :
  k <> k' -> dict_get (dict_set d k v) k' = dict_get d k'.
Proof.
  intros Hne.
  induction d as [|[k0 v0] d IH]; simpl; [reflexivity|].
  destruct (String.eqb_spec k0 k) as [->|H0]; simpl.
  - destruct (String.eqb_spec k k'); [contradiction | reflexivity].
  - now rewrite IH.
Qed.

Lemma dict_get_In (d : dict V) (k : string) (v : V) :
  dict_get d k = Some v -> In (k, v) d.
Proof.
  induction d as [|[k' v'] d IH]; simpl; [discriminate|].
  destruct (String.eqb_spec k' k) as [->|H0].
  - intros [= ->]. now left.
  - auto.
Qed.

Lemma getitem_keys (d : dict V) (k : string) :
  In k (keys d) -> exists v, getitem d k = Ok v /\ dict_get d k = Some v.
Proof.
  intros H. apply dict_get_In_keys in H as [v Hv].
  exists v. unfold getitem. now rewrite Hv.
Qed.

End DictFacts.

Lemma dict_mem_ext {V W : Type} (d : dict V) (d' : dict W) (k : string) :
  keys d = keys d' -> dict_mem d k = dict_mem d' k.
Proof.
  intros H.
  destruct (dict_mem d k) eqn:E, (dict_mem d' k) eqn:E'; try reflexivity.
  - apply dict_mem_keys in E. rewrite H in E. apply dict_mem_keys in E.
    congruence.
  - apply dict_mem_keys in E'. rewrite <- H in E'. apply dict_mem_keys in E'.
    congruence.
Qed.

(** * Facts about the weight resolution *)

Lemma sum_acc (xs : list Q) (a : Q) : fold_left Qplus xs a == a + sum xs.
Proof.
  unfold sum. revert a.
  induction xs as [|x xs IH]; intros a; simpl.
  - ring.
  - rewrite IH, (IH (0 + x)). ring.
Qed.

Lemma sum_cons (x : Q) (xs : list Q) : sum (x :: xs) == x + sum xs.
Proof. unfold sum at 1. simpl. rewrite sum_acc. ring. Qed.

Lemma scaled_keys (t : binary64) (m : dict binary64) :
  keys (map (fun kv => (fst kv, PrimFloat.div (snd kv) t)) m) = keys m.
Proof. unfold keys. rewrite map_map. reflexivity. Qed.

(** The float sum of the default weights is exactly 1.0, and dividing them
    by it changes none of them. *)
Lemma default_weights_sum : sum_floats (values default_weights) = 1%float.
Proof. reflexivity. Qed.

Lemma default_weights_scaled :
  map (fun kv => (fst kv, PrimFloat.div (snd kv) (total default_weights)))
      default_weights
  = default_weights.
Proof. reflexivity. Qed.

(** Section 8 of the specification: [weights = {"fees_fx": 0}] zeroes
    fees_fx, keeps the other defaults and renormalizes. *)
Example weights_fees_fx_zero :
  float_weights (Some [("fees_fx", PyInt 0)])
  = Ok [("fees_fx", 0%float); ("trust", 0.3%float); ("service", 0.3%float);
        ("customer_satisfaction", 0.2%float); ("reliability", 0.12%float);
        ("speed", 0.08%float)].
Proof. reflexivity. Qed.

(** What [float(v)] makes of the values of a weights dict. *)
Example float_examples :
  float (PyInt 2) = Ok 2%float /\
  float (PyBool true) = Ok 1%float /\
  float (PyStr " 1.5 " (Some 1.5%float)) = Ok 1.5%float /\
  float (PyStr "abc" None) = Raise ValueError /\
  float PyNone = Raise (Builtin TypeError) /\
  float (PyInt (10 ^ 400)) = Raise OverflowError /\
  float (PyInt (2 ^ 53 + 1)) = Ok 9007199254740992%float.
Proof. repeat split; vm_compute; reflexivity. Qed.

Example weights_bad_value :
  float_weights (Some [("trust", PyStr "abc" None)]) = Raise ValueError /\
  weights (Some [("trust", PyFloat infinity)]) = Raise NonFinite.
Proof. split; vm_compute; reflexivity. Qed.


Lemma merge_items_keys (items : dict pyvalue) :
  forall d merged, merge_items d items = Ok merged -> keys merged = keys d.
Proof.
  induction items as [|[k v] items IH]; simpl; intros d merged H.
  - now injection H as <-.
  - destruct (dict_mem d k).
    + destruct (float v) as [x|e]; simpl in H; [|discriminate].
      apply IH in H. now rewrite dict_set_keys in H.
    + now apply IH.
Qed.

Lemma merge_items_accepted (items : dict pyvalue) :
  forall d,
    (forall k v, In (k, v) items -> dict_mem d k = true ->
                 exists x, float v = Ok x) ->
    exists merged, merge_items d items = Ok merged.
Proof.
  induction items as [|[k v] items IH]; simpl; intros d Hnum.
  - eauto.
  - destruct (dict_mem d k) eqn:E.
    + destruct (Hnum k v) as [x ->]; [now left | exact E|]. simpl.
      apply IH. intros k' v' Hin Hmem.
      apply (Hnum k' v'); [now right|].
      rewrite <- Hmem. apply dict_mem_ext. now rewrite dict_set_keys.
    + apply IH. intros k' v' Hin. apply Hnum. now right.
Qed.

Lemma merge_items_unrecognized (items : dict pyvalue) :
  forall d,
    merge_items d items
    = merge_items d (filter (fun kv => dict_mem d (fst kv)) items).
Proof.
  induction items as [|[k v] items IH]; simpl; intros d; [reflexivity|].
  destruct (dict_mem d k) eqn:E; simpl.
  - rewrite E. destruct (float v) as [x|e]; simpl; [|reflexivity].
    rewrite IH. f_equal. apply filter_ext. intros [k' v']. simpl.
    apply dict_mem_ext. apply dict_set_keys.
  - apply IH.
Qed.

Lemma merge_items_get (items : dict pyvalue) (k : string) :
  forall d merged,
    NoDup (keys items) ->
    merge_items d items = Ok merged ->
    dict_get merged k
    = match dict_get items k with
      | Some v =>
          if dict_mem d k
          then match float v with Ok x => Some x | Raise _ => None end
          else None
      | None => dict_get d k
      end.
Proof.
  induction items as [|[k' v] items IH]; simpl; intros d merged Hnd H.
  - now injection H as <-.
  - inversion Hnd as [|? ? Hnotin Hnd']; subst.
    assert (Hrest : k' = k -> dict_get items k = None).
    { intros ->. destruct (dict_get items k) eqn:G; [|reflexivity].
      exfalso. apply Hnotin. apply dict_get_In_keys. eauto. }
    destruct (dict_mem d k') eqn:E.
    + destruct (float v) as [x|e] eqn:Ef; simpl in H; [|discriminate].
      rewrite (IH _ _ Hnd' H).
      destruct (String.eqb_spec k' k) as [->|Hne].
      * rewrite Hrest by reflexivity. rewrite E, Ef.
        now apply dict_get_set_same.
      * rewrite (dict_get_set_other d k' k x Hne).
        rewrite (dict_mem_ext (dict_set d k' x) d k (dict_set_keys d k' x)).
        reflexivity.
    + rewrite (IH _ _ Hnd' H).
      destruct (String.eqb_spec k' k) as [->|Hne]; [|reflexivity].
      rewrite Hrest by reflexivity. rewrite E.
      unfold dict_mem in E.
      destruct (dict_get d k); [discriminate | reflexivity].
Qed.

(** Either the defaults are returned as they are, or the merged weights
    divided by their total. *)
Lemma float_weights_cases (rw : option (dict pyvalue)) (w : dict binary64) :
  float_weights rw = Ok w ->
  (w = default_weights /\ (rw = None \/ rw = Some [])) \/
  exists items merged,
    rw = Some items /\ items <> [] /\
    merge_items default_weights items = Ok merged /\
    w = map (fun kv => (fst kv, PrimFloat.div (snd kv) (total merged))) merged.
Proof.
  unfold float_weights. intros H.
  destruct rw as [[|kv rest]|]; try (left; injection H as <-; now auto).
  destruct (merge_items default_weights (kv :: rest)) as [merged|e] eqn:Em;
    [|discriminate].
  simpl in H. injection H as <-. right.
  exists (kv :: rest), merged.
  split; [reflexivity|]. split; [discriminate|]. split; [exact Em | reflexivity].
Qed.

Lemma float_weights_keys (rw : option (dict pyvalue)) (w : dict binary64) :
  float_weights rw = Ok w -> keys w = keys default_weights.
Proof.
  intros H.
  apply float_weights_cases in H as [[-> _]|(items & merged & _ & _ & Hm & ->)].
  - reflexivity.
  - rewrite scaled_keys. eapply merge_items_keys, Hm.
Qed.

Lemma rationals_keys (d : dict binary64) :
  forall w, rationals d = Ok w -> keys w = keys d.
Proof.
  induction d as [|[k x] d IH]; simpl; intros w H.
  - now injection H as <-.
  - destruct (rational x) as [q|e]; [|discriminate]. simpl in H.
    destruct (rationals d) as [rest|e]; [|discriminate]. simpl in H.
    injection H as <-. simpl. f_equal. now apply IH.
Qed.

(** The scoring reads the resolved weights unchanged: same keys, and each
    number the exact value of the float. *)
Lemma rationals_exact (d : dict binary64) :
  forall w,
    rationals d = Ok w ->
    Forall2 (fun kx kq => fst kq = fst kx /\ exact (snd kx) = Some (snd kq)) d w.
Proof.
  induction d as [|[k x] d IH]; simpl; intros w H.
  - injection H as <-. constructor.
  - unfold rational in H. destruct (exact x) as [q|] eqn:Ex; [|discriminate].
    simpl in H. destruct (rationals d) as [rest|e]; [|discriminate].
    simpl in H. injection H as <-. constructor; [auto | now apply IH].
Qed.

Lemma weights_exact (rw : option (dict pyvalue)) (fw : dict binary64)
    (w : dict Q) :
  float_weights rw = Ok fw -> weights rw = Ok w ->
  Forall2 (fun kx kq => fst kq = fst kx /\ exact (snd kx) = Some (snd kq)) fw w.
Proof.
  unfold weights. intros -> H. simpl in H. now apply rationals_exact.
Qed.

Example exact_examples :
  option_map Qred (exact 0.5%float) = Some (1 # 2) /\
  option_map Qred (exact 0.15%float)
  = Some (5404319552844595 # 36028797018963968) /\
  option_map Qred (exact (-3)%float) = Some (-3 # 1) /\
  option_map Qred (exact 0%float) = Some 0 /\
  exact infinity = None /\ exact nan = None.
Proof. repeat split; vm_compute; reflexivity. Qed.

Lemma weights_keys (rw : option (dict pyvalue)) (w : dict Q) :
  weights rw = Ok w -> keys w = keys default_weights.
Proof.
  unfold weights. intros H.
  destruct (float_weights rw) as [fw|e] eqn:Ef; [|discriminate].
  simpl in H. apply rationals_keys in H. rewrite H.
  eapply float_weights_keys, Ef.
Qed.

(** * Facts about the aggregates *)

Lemma fold_min_spec (xs : list Q) :
  forall x,
    let m := fold_left (fun m y => if Qlt_le_dec y m then y else m) xs x in
    In m (x :: xs) /\ forall y, In y (x :: xs) -> m <= y.
Proof.
  induction xs as [|z xs IH]; intros x; simpl.
  - split; [now left|]. intros y [<-|[]]. apply Qle_refl.
  - destruct (Qlt_le_dec z x) as [Hlt|Hle].
    + destruct (IH z) as [Hin Hmin]. split.
      * right. exact Hin.
      * intros y [<-|Hy]; [|now apply Hmin].
        apply Qle_trans with z; [apply Hmin; now left | now apply Qlt_le_weak].
    + destruct (IH x) as [Hin Hmin]. split.
      * destruct Hin as [Hin|Hin]; [now left | right; now right].
      * intros y [<-|[<-|Hy]].
        -- apply Hmin. now left.
        -- apply Qle_trans with x; [apply Hmin; now left | exact Hle].
        -- apply Hmin. now right.
Qed.

Lemma pymin_spec (xs : list Q) (default : option Q) :
  xs <> [] ->
  exists m, pymin xs default = Ok m /\ In m xs /\ forall y, In y xs -> m <= y.
Proof.
  destruct xs as [|x xs]; [congruence|]. intros _.
  eexists. split; [reflexivity|]. apply fold_min_spec.
Qed.

Lemma pymax_total (xs : list Q) : xs <> [] -> exists m, pymax xs = Ok m.
Proof. destruct xs; [congruence | simpl; eauto]. Qed.

Section AggregateFacts.

Context {FeeBreakdown : Type}.
Implicit Types nr : list (NumericResult FeeBreakdown).

Lemma best_landing_total nr : exists bl, best_landing nr = Ok bl.
Proof.
  destruct nr as [|r nr]; simpl; eauto.
Qed.

Lemma best_fees_total nr : exists bf, best_fees nr = Ok bf.
Proof.
  unfold best_fees.
  destruct nr as [|r nr]; [simpl; eauto|].
  destruct (pymin_spec (map fees (r :: nr)) None) as (m & -> & _);
    [discriminate|].
  simpl bind.
  destruct (Qeq_bool m 0); [|eauto].
  match goal with
  | |- exists bf, pymin ?xs _ = Ok bf => destruct xs; simpl; eauto
  end.
Qed.

Lemma positive_fee_filter nr (r : NumericResult FeeBreakdown) :
  In r (filter (fun r => negb (Qle_bool (fees r) 0)) nr)
  <-> In r nr /\ 0 < fees r.
Proof.
  rewrite filter_In. apply and_iff_compat_l.
  rewrite negb_true_iff. split.
  - intros H. apply Qnot_le_lt. intros Hle.
    apply Qle_bool_iff in Hle. congruence.
  - intros H. destruct (Qle_bool (fees r) 0) eqn:E; [|reflexivity].
    apply Qle_bool_iff in E. exfalso. now apply (Qlt_not_le _ _ H).
Qed.

End AggregateFacts.

(** * Facts about the handler *)

Section QuoteFacts.

Context {FeeRules FeeBreakdown : Type}.
Variable compute_for_provider : Q -> Q -> FeeRules -> FeeModelResult FeeBreakdown.
Variable _normalize : Q -> Q.
Variable compute_financial_score : Q -> Q -> Q -> Q -> Q.

Implicit Types (p : Provider FeeRules) (providers : list (Provider FeeRules)).
Implicit Types (s : Scored FeeBreakdown) (nr : list (NumericResult FeeBreakdown)).
Implicit Types (w : dict Q) (req : QuoteRequest).

Local Notation numeric_results' := (numeric_results compute_for_provider).
Local Notation score_provider' :=
  (score_provider _normalize compute_financial_score).
Local Notation augmented' := (augmented _normalize compute_financial_score).
Local Notation scored_as' := (scored_as _normalize compute_financial_score).

Lemma find_numeric (amount rate : Q) providers p :
  In p providers ->
  exists m,
    find (fun x => String.eqb (code x) (Provider_code p))
         (numeric_results' amount rate providers) = Some m.
Proof.
  intros Hin.
  destruct (find _ (numeric_results' amount rate providers)) eqn:E; [eauto|].
  exfalso.
  unfold numeric_results in E.
  eapply find_none in E; [|apply in_map, Hin].
  simpl in E. now rewrite String.eqb_refl in E.
Qed.

Lemma score_provider_ok w nr bl bf p m :
  keys w = keys default_weights ->
  find (fun x => String.eqb (code x) (Provider_code p)) nr = Some m ->
  exists s, score_provider' w nr bl bf p = Ok (Some s)
            /\ scored_as' w nr bl bf p s.
Proof.
  intros Hk Hm.
  assert (Hget : forall k, In k (keys default_weights) ->
                           exists v, getitem w k = Ok v /\ dict_get w k = Some v).
  { intros k Hin. apply getitem_keys. now rewrite Hk. }
  destruct (Hget "fees_fx") as (w1 & G1 & D1); [simpl; tauto|].
  destruct (Hget "trust") as (w2 & G2 & D2); [simpl; tauto|].
  destruct (Hget "service") as (w3 & G3 & D3); [simpl; tauto|].
  destruct (Hget "customer_satisfaction") as (w4 & G4 & D4); [simpl; tauto|].
  destruct (Hget "reliability") as (w5 & G5 & D5); [simpl; tauto|].
  destruct (Hget "speed") as (w6 & G6 & D6); [simpl; tauto|].
  unfold score_provider, composite. rewrite Hm, G1, G2, G3, G4, G5, G6.
  simpl bind. eexists. split; [reflexivity|].
  exists w1, w2, w3, w4, w5, w6. simpl.
  unfold composite. rewrite G1, G2, G3, G4, G5, G6. simpl.
  repeat split; assumption || reflexivity.
Qed.

Lemma augmented_ok w nr bl bf providers :
  keys w = keys default_weights ->
  (forall p, In p providers ->
     exists m, find (fun x => String.eqb (code x) (Provider_code p)) nr = Some m) ->
  exists aug, augmented' w nr bl bf providers = Ok aug
              /\ Forall2 (scored_as' w nr bl bf) providers aug.
Proof.
  intros Hk. induction providers as [|p ps IH]; intros Hfind; simpl.
  - eauto.
  - destruct (Hfind p) as [m Hm]; [now left|].
    destruct (score_provider_ok w nr bl bf p m Hk Hm) as (s & -> & Hs).
    destruct IH as (aug & -> & Haug); [intros q Hq; apply Hfind; now right|].
    simpl. eauto.
Qed.

Lemma scored_as_code w nr bl bf p s :
  scored_as' w nr bl bf p s -> code (numeric s) = Provider_code p.
Proof.
  intros (w1 & w2 & w3 & w4 & w5 & w6 & _ & _ & _ & _ & _ & _ & Hf & _).
  apply find_some in Hf as [_ Hf]. now apply String.eqb_eq in Hf.
Qed.

Variable get_live_rates : string -> dict Q.

Local Notation quote' :=
  (quote compute_for_provider _normalize compute_financial_score
         get_live_rates).

(** What a successful run of the handler went through. *)
Lemma quote_inv providers req resp :
  quote' providers req = Ok resp ->
  0 < amount req /\ providers <> [] /\
  dict_get (get_live_rates (upper (from_currency req)))
           (upper (to_currency req)) = Some (resp_rate resp) /\
  weights (req_weights req) = Ok (resp_weights resp) /\
  exists bl bf aug,
    let nr := numeric_results' (amount req) (resp_rate resp) providers in
    best_landing nr = Ok bl /\ best_fees nr = Ok bf /\
    augmented' (resp_weights resp) nr bl bf providers = Ok aug /\
    Forall2 (scored_as' (resp_weights resp) nr bl bf) providers aug /\
    results resp = slice_to (results_sorted aug) (top_n req).
Proof.
  unfold quote. intros H.
  destruct (Qle_bool (amount req) 0) eqn:Ea; [discriminate|].
  destruct providers as [|p0 ps] eqn:Ep; [discriminate|]. rewrite <- Ep in *.
  destruct (dict_get _ _) as [rate|] eqn:Er; [|discriminate].
  destruct (weights (req_weights req)) as [w|] eqn:Ew; [|discriminate].
  simpl bind in H.
  destruct (best_landing _) as [bl|] eqn:Ebl; [|discriminate].
  destruct (best_fees _) as [bf|] eqn:Ebf; [|discriminate].
  simpl bind in H.
  assert (Hk : keys w = keys default_weights) by (eapply weights_keys, Ew).
  destruct (augmented_ok w (numeric_results' (amount req) rate providers)
              bl bf providers Hk) as (aug & Haug & Hall).
  { intros p Hp. now apply find_numeric. }
  rewrite Haug in H. simpl in H. injection H as <-. simpl.
  repeat split.
  - apply Qnot_le_lt. intros Hle. apply Qle_bool_iff in Hle. congruence.
  - rewrite Ep. discriminate.
  - exists bl, bf, aug. auto.
Qed.

(** Valid input always gets a response. *)
Lemma quote_ok providers req rate w :
  0 < amount req -> providers <> [] ->
  dict_get (get_live_rates (upper (from_currency req)))
           (upper (to_currency req)) = Some rate ->
  weights (req_weights req) = Ok w ->
  exists resp, quote' providers req = Ok resp.
Proof.
  intros Ha Hp Hr Hw. unfold quote.
  destruct (Qle_bool (amount req) 0) eqn:Ea.
  { apply Qle_bool_iff in Ea. exfalso. now apply (Qlt_not_le _ _ Ha). }
  destruct providers as [|p0 ps] eqn:Ep; [congruence|]. rewrite <- Ep in *.
  rewrite Hr, Hw. simpl bind.
  destruct (best_landing_total (numeric_results' (amount req) rate providers))
    as [bl ->].
  destruct (best_fees_total (numeric_results' (amount req) rate providers))
    as [bf ->].
  simpl bind.
  assert (Hk : keys w = keys default_weights) by (eapply weights_keys, Hw).
  destruct (augmented_ok w (numeric_results' (amount req) rate providers)
              bl bf providers Hk) as (aug & -> & _).
  { intros p Hp'. now apply find_numeric. }
  simpl. eauto.
Qed.

End QuoteFacts.

(** * The ranking *)

Lemma StronglySorted_weaken {A : Type} (R R' : A -> A -> Prop) (l : list A) :
  (forall a b, R a b -> R' a b) -> StronglySorted R l -> StronglySorted R' l.
Proof.
  intros HR. induction 1 as [|x l Hs IH Hf]; constructor.
  - exact IH.
  - eapply Forall_impl; [|exact Hf]. intros b. apply HR.
Qed.

Lemma Forall2_In_r {A B : Type} (R : A -> B -> Prop) (l1 : list A) (l2 : list B) (y : B) :
  Forall2 R l1 l2 -> In y l2 -> exists x, In x l1 /\ R x y.
Proof.
  induction 1 as [|a b l1 l2 Hab Hrest IH]; simpl; [tauto|].
  intros [<-|Hin].
  - exists a. auto.
  - destruct (IH Hin) as (x & Hx & Hr). exists x. auto.
Qed.

Section RankingFacts.

Context {FeeBreakdown : Type}.
Implicit Types (aug top : list (Scored FeeBreakdown)).

Lemma results_sorted_descending aug :
  StronglySorted descending (results_sorted aug).
Proof.
  unfold results_sorted.
  eapply StronglySorted_weaken; [|apply sorted_sorted].
  intros a b H. unfold descending. simpl in H.
  apply Qopp_le_compat in H. now rewrite !Qopp_involutive in H.
Qed.

Lemma results_sorted_perm aug : Permutation (results_sorted aug) aug.
Proof. apply sorted_perm. Qed.

(** Candidates tied on the composite score are not reordered. *)
Lemma results_sorted_stable aug (k : Q) :
  filter (has_score k) (results_sorted aug) = filter (has_score k) aug.
Proof.
  apply sorted_filter. intros a b Ha Hb. unfold has_score in *.
  apply Qeq_bool_iff in Ha, Hb. now rewrite Ha, Hb.
Qed.

Lemma top_descending aug top (n : option Z) :
  top = slice_to (results_sorted aug) n -> StronglySorted descending top.
Proof.
  intros ->. eapply prefix_sorted; [apply slice_to_prefix|].
  apply results_sorted_descending.
Qed.

Lemma top_stable aug top (n : option Z) (k : Q) :
  top = slice_to (results_sorted aug) n ->
  prefix (filter (has_score k) top) (filter (has_score k) aug).
Proof.
  intros ->. rewrite <- (results_sorted_stable aug k).
  apply prefix_filter, slice_to_prefix.
Qed.

Lemma top_In aug top (n : option Z) (s : Scored FeeBreakdown) :
  top = slice_to (results_sorted aug) n -> In s top -> In s aug.
Proof.
  intros -> H. eapply Permutation_in; [apply results_sorted_perm|].
  eapply prefix_In; [apply slice_to_prefix | exact H].
Qed.

End RankingFacts.

(** * The claims about the handler *)

Section Claims.

Context {FeeRules FeeBreakdown : Type}.
Variable compute_for_provider : Q -> Q -> FeeRules -> FeeModelResult FeeBreakdown.
Variable _normalize : Q -> Q.
Variable compute_financial_score : Q -> Q -> Q -> Q -> Q.
Variable get_live_rates : string -> dict Q.

Implicit Types (p : Provider FeeRules) (providers : list (Provider FeeRules)).
Implicit Types (s : Scored FeeBreakdown) (req : QuoteRequest).
Implicit Types (resp : QuoteResponse FeeBreakdown).

Local Notation numeric_results' := (numeric_results compute_for_provider).
Local Notation augmented' := (augmented _normalize compute_financial_score).
Local Notation scored_as' := (scored_as _normalize compute_financial_score).

(** C1.  The ranked output of the handler is ordered descending by
    composite score, and candidates with equal composite scores appear in
    the order of the provider list: the candidates [aug] are scored one
    per provider, in input order, and for every score [k] the results
    with score [k] are an initial segment of the candidates with score
    [k]. *)
Theorem ranked_descending_stable providers req resp :
  quote compute_for_provider _normalize compute_financial_score
  get_live_rates providers req = Ok resp ->
  StronglySorted descending (results resp) /\
  exists bl bf aug,
    let nr := numeric_results' (amount req) (resp_rate resp) providers in
    best_landing nr = Ok bl /\ best_fees nr = Ok bf /\
    augmented' (resp_weights resp) nr bl bf providers = Ok aug /\
    Forall2 (fun p s => code (numeric s) = Provider_code p) providers aug /\
    forall k, prefix (filter (has_score k) (results resp))
                     (filter (has_score k) aug).
Proof.
  intros H.
  apply quote_inv in H
    as (_ & _ & _ & _ & bl & bf & aug & Hbl & Hbf & Haug & Hall & Hres).
  split.
  - eapply top_descending, Hres.
  - exists bl, bf, aug. repeat split; try assumption.
    + eapply Forall2_impl; [|exact Hall].
      intros p s. apply scored_as_code.
    + intros k. eapply top_stable, Hres.
Qed.


(** C5.  For a positive [top_n] the ranked output is the ranking cut after
    its first [top_n] entries: it has [min(top_n, number of providers)]
    entries, they are the first ones of the sorted candidates, and when
    [top_n] is not below the number of providers the output is the whole
    ranking, a rearrangement of all candidates. *)
Theorem top_n_length providers req resp (n : Z) :
  quote compute_for_provider _normalize compute_financial_score
  get_live_rates providers req = Ok resp ->
  top_n req = Some n ->
  (0 < n)%Z ->
  List.length (results resp) = Nat.min (Z.to_nat n) (List.length providers) /\
  exists bl bf aug,
    let nr := numeric_results' (amount req) (resp_rate resp) providers in
    best_landing nr = Ok bl /\ best_fees nr = Ok bf /\
    augmented' (resp_weights resp) nr bl bf providers = Ok aug /\
    List.length aug = List.length providers /\
    Permutation (results_sorted aug) aug /\
    results resp = firstn (Z.to_nat n) (results_sorted aug) /\
    ((List.length providers <= Z.to_nat n)%nat ->
     results resp = results_sorted aug).
Proof.
  intros H Hn Hpos.
  apply quote_inv in H
    as (_ & _ & _ & _ & bl & bf & aug & Hbl & Hbf & Haug & Hall & Hres).
  pose proof (Forall2_length Hall) as Hlen.
  assert (Hfirst : results resp = firstn (Z.to_nat n) (results_sorted aug)).
  { rewrite Hres, Hn. simpl.
    destruct (n <? 0)%Z eqn:E; [apply Z.ltb_lt in E; lia | reflexivity]. }
  split.
  - rewrite Hfirst, length_firstn. unfold results_sorted.
    rewrite sorted_length. now rewrite Hlen.
  - exists bl, bf, aug. cbv zeta.
    split; [exact Hbl|]. split; [exact Hbf|]. split; [exact Haug|].
    split; [now symmetry|]. split; [apply results_sorted_perm|].
    split; [exact Hfirst|].
    intros Hle. rewrite Hfirst. apply firstn_all2.
    unfold results_sorted. rewrite sorted_length. lia.
Qed.

(** C7.  Invalid input is rejected with an [HTTPException] carrying a
    message, whatever the helpers of the ranking are: a non-positive
    amount first, then an empty provider list, then a target currency
    missing from the rates. *)
Theorem invalid_input_rejected providers req :
  (amount req <= 0 ->
   quote compute_for_provider _normalize compute_financial_score
   get_live_rates providers req = Raise (HTTPException 400 "amount must be > 0")) /\
  (0 < amount req -> providers = [] ->
   quote compute_for_provider _normalize compute_financial_score
   get_live_rates providers req = Raise (HTTPException 500 "no providers available")) /\
  (0 < amount req -> providers <> [] ->
   dict_get (get_live_rates (upper (from_currency req)))
            (upper (to_currency req)) = None ->
   quote compute_for_provider _normalize compute_financial_score
     get_live_rates providers req
   = Raise (HTTPException 400
              ("currency pair " ++ upper (from_currency req) ++ "->"
               ++ upper (to_currency req) ++ " not available"))).
Proof.
  assert (Hpos : 0 < amount req -> Qle_bool (amount req) 0 = false).
  { intros Ha. destruct (Qle_bool (amount req) 0) eqn:E; [|reflexivity].
    apply Qle_bool_iff in E. exfalso. now apply (Qlt_not_le _ _ Ha). }
  unfold quote. repeat split.
  - intros Ha. apply Qle_bool_iff in Ha. now rewrite Ha.
  - intros Ha ->. now rewrite (Hpos Ha).
  - intros Ha Hp Hr. rewrite (Hpos Ha), Hr.
    destruct providers; [congruence | reflexivity].
Qed.


End Claims.

Section Determinism.

Context {FeeRules FeeBreakdown : Type}.
Variable compute_for_provider : Q -> Q -> FeeRules -> FeeModelResult FeeBreakdown.
Variable _normalize : Q -> Q.
Variable compute_financial_score : Q -> Q -> Q -> Q -> Q.


(** C9.  The ranking is a function of the amount, the rate, the provider
    records, the weights and top_n alone: two runs that agree on these
    five, whatever their currency codes, criteria and rate tables
    otherwise are, either both fail with the same exception or both
    answer with the same ordered results and the same weights. *)
Theorem ranking_deterministic
    (rates1 rates2 : string -> dict Q)
    (providers : list (Provider FeeRules)) (req1 req2 : QuoteRequest)
    (rate : Q) :
  amount req1 = amount req2 ->
  req_weights req1 = req_weights req2 ->
  top_n req1 = top_n req2 ->
  dict_get (rates1 (upper (from_currency req1))) (upper (to_currency req1))
  = Some rate ->
  dict_get (rates2 (upper (from_currency req2))) (upper (to_currency req2))
  = Some rate ->
  match quote compute_for_provider _normalize compute_financial_score
        rates1 providers req1,
      quote compute_for_provider _normalize compute_financial_score
        rates2 providers req2 with
  | Ok resp1, Ok resp2 =>
      results resp1 = results resp2 /\
      resp_weights resp1 = resp_weights resp2 /\
      resp_amount resp1 = resp_amount resp2 /\
      resp_rate resp1 = resp_rate resp2
  | Raise e1, Raise e2 => e1 = e2
  | _, _ => False
  end.
Proof.
  intros Ha Hw Hn Hr1 Hr2. unfold quote.
  rewrite <- Ha, <- Hw, <- Hn, Hr1, Hr2.
  destruct (Qle_bool (amount req1) 0); [reflexivity|].
  destruct providers as [|p0 ps] eqn:Ep; [reflexivity|]. rewrite <- Ep.
  destruct (weights (req_weights req1)) as [w|e]; [|reflexivity].
  simpl bind.
  destruct (best_landing _) as [bl|e]; [|reflexivity]. simpl bind.
  destruct (best_fees _) as [bf|e]; [|reflexivity]. simpl bind.
  destruct (augmented _ _ _ _ _ _ _) as [aug|e]; [|reflexivity].
  simpl. auto.
Qed.

End Determinism.

(** * The claims about the aggregates and the weights *)

Section BestFees.

Context {FeeBreakdown : Type}.
Implicit Types (nr : list (NumericResult FeeBreakdown)).

(** C4.  When the lowest fee of the pool is 0, [best_fees] raises nothing
    and is the lowest strictly positive fee of the pool; when no fee is
    positive it is the constant 1. *)
Theorem best_fees_zero_fallback nr :
  (exists r, In r nr /\ fees r == 0) ->
  (forall r, In r nr -> 0 <= fees r) ->
  exists b,
    best_fees nr = Ok b /\
    ((exists r, In r nr /\ 0 < fees r) ->
     0 < b /\ (exists r, In r nr /\ fees r = b) /\
     forall r, In r nr -> 0 < fees r -> b <= fees r) /\
    ((forall r, In r nr -> ~ 0 < fees r) -> b = 1).
Proof.
  intros (r0 & Hr0 & Hzero) Hnonneg.
  unfold best_fees.
  destruct nr as [|r1 nr'] eqn:Enr; [contradiction|]. rewrite <- Enr in *.
  destruct (pymin_spec (map fees nr) None) as (m & -> & Hin & Hmin).
  { rewrite Enr. discriminate. }
  simpl bind.
  assert (Hm : m == 0).
  { apply Qle_antisym.
    - rewrite <- Hzero. apply Hmin. now apply in_map.
    - apply in_map_iff in Hin as (r & <- & Hr). now apply Hnonneg. }
  apply Qeq_bool_iff in Hm. rewrite Hm.
  set (pos := filter (fun r => negb (Qle_bool (fees r) 0)) nr).
  destruct pos as [|r2 pos'] eqn:Epos.
  - exists 1. split; [reflexivity|]. split; [|reflexivity].
    intros (r & Hr & Hpos). exfalso.
    assert (Hin' : In r pos) by (apply positive_fee_filter; auto).
    now rewrite Epos in Hin'.
  - destruct (pymin_spec (map fees pos) (Some 1)) as (b & Hb & Hbin & Hbmin).
    { rewrite Epos. discriminate. }
    rewrite <- Epos, Hb. exists b. split; [reflexivity|].
    apply in_map_iff in Hbin as (rb & Hrb & Hrbin).
    apply positive_fee_filter in Hrbin as [Hrbin Hrbpos].
    split.
    + intros _. split; [now rewrite <- Hrb|].
      split; [eauto|].
      intros r Hr Hpos. apply Hbmin. apply in_map.
      apply positive_fee_filter. auto.
    + intros Hnone. exfalso. now apply (Hnone rb).
Qed.

End BestFees.


(** C8.  The recognized keys are the six criteria.  Entries under any other
    key change neither the merged weights nor the resolved weights, whatever
    their value, and cannot make the resolution fail: it fails only on a
    recognized entry that [float()] rejects.  The resolved weights have
    exactly the six keys of the defaults and are the merged weights divided
    by their total; in the merged weights a recognized key carries the
    float of the value the dict gives it, and every other recognized key
    its default. *)
Theorem unrecognized_keys_dropped (items : dict pyvalue) :
  let recognized := filter (fun kv => dict_mem default_weights (fst kv)) items in
  (forall k, dict_mem default_weights k = true <->
             In k ["fees_fx"; "trust"; "service"; "customer_satisfaction";
                   "reliability"; "speed"]) /\
  merge_items default_weights items = merge_items default_weights recognized /\
  float_weights (Some items) = float_weights (Some recognized) /\
  ((forall k v, In (k, v) items ->
                dict_mem default_weights k = true -> exists x, float v = Ok x) <->
   exists w, float_weights (Some items) = Ok w) /\
  (forall w, float_weights (Some items) = Ok w ->
     keys w = keys default_weights /\
     (items <> [] ->
      exists merged,
        merge_items default_weights items = Ok merged /\
        w = map (fun kv => (fst kv, PrimFloat.div (snd kv) (total merged)))
              merged) /\
     (forall q, weights (Some items) = Ok q ->
        Forall2 (fun kx kq => fst kq = fst kx /\ exact (snd kx) = Some (snd kq))
                w q)) /\
  (forall merged k,
     NoDup (keys items) ->
     merge_items default_weights items = Ok merged ->
     dict_get merged k
     = match dict_get items k with
       | Some v =>
           if dict_mem default_weights k
           then match float v with Ok x => Some x | Raise _ => None end
           else None
       | None => dict_get default_weights k
       end).
Proof.
  intros recognized.
  split; [intros k; apply dict_mem_keys|].
  split; [apply merge_items_unrecognized|].
  split; [|split; [|split]].
  - (* the resolved weights ignore the unrecognized entries *)
    destruct items as [|kv rest]; [reflexivity|].
    pose proof (merge_items_unrecognized (kv :: rest) default_weights) as Hm.
    change (merge_items default_weights (kv :: rest)
            = merge_items default_weights recognized) in Hm.
    clearbody recognized.
    unfold float_weights at 1. rewrite Hm.
    destruct recognized as [|kv' rest']; reflexivity.
  - split.
    + intros Hnum.
      destruct (merge_items_accepted items default_weights Hnum) as [merged Hm].
      unfold float_weights. destruct items as [|kv rest]; [eauto|].
      rewrite Hm. simpl. eauto.
    + intros [w Hw] k v Hin Hmem.
      destruct (float v) as [x|e] eqn:Ef; [eauto|]. exfalso.
      unfold float_weights in Hw.
      destruct items as [|kv rest] eqn:Ei; [contradiction|]. rewrite <- Ei in *.
      destruct (merge_items default_weights items) as [merged|e'] eqn:Hm;
        [|discriminate].
      clear Hw Ei. revert Hm Hin Hmem. generalize default_weights.
      induction items as [|[k' v'] items IH]; intros d Hm Hin Hmem;
        [contradiction|].
      simpl in Hm. destruct Hin as [Heq|Hin].
      * injection Heq as -> ->. rewrite Hmem, Ef in Hm. discriminate.
      * destruct (dict_mem d k') eqn:E.
        -- destruct (float v') as [x'|]; [|discriminate]. simpl in Hm.
           apply (IH _ Hm Hin).
           rewrite <- Hmem. apply dict_mem_ext, dict_set_keys.
        -- apply (IH _ Hm Hin Hmem).
  - intros w Hw. split; [eapply float_weights_keys, Hw|].
    split; [|intros q Hq; eapply weights_exact; eassumption].
    intros Hne.
    apply float_weights_cases in Hw
      as [[_ [Habs|Habs]]|(items' & merged & Heq & _ & Hm & ->)].
    + discriminate.
    + injection Habs as ->. congruence.
    + injection Heq as <-. eauto.
  - intros merged k Hnd Hm. now apply merge_items_get.
Qed.

(** C6.  With a positive epsilon the sub-scorer of the specification
    returns a value, the value lies in [[0, 1]], and when [best_landing] is
    0 the landing ratio is the neutral value: no division by
    [best_landing] takes place and [landing] plays no part. *)
Theorem financial_score_spec_unit_interval
    (neutral epsilon landing fees best_landing best_fees : Q) :
  0 < epsilon ->
  exists v,
    financial_score_spec neutral epsilon landing fees best_landing best_fees
    = Ok v /\
    0 <= v /\ v <= 1 /\
    (best_landing == 0 ->
     v = clamp01 (0.5 * neutral + 0.5 * (best_fees / Qmax fees epsilon))).
Proof.
  intros Heps.
  assert (Hden : Qeq_bool (Qmax fees epsilon) 0 = false).
  { destruct (Qeq_bool (Qmax fees epsilon) 0) eqn:E; [|reflexivity].
    apply Qeq_bool_iff in E. exfalso.
    apply (Qlt_not_le _ _ Heps). rewrite <- E. apply Q.le_max_r. }
  assert (Hclamp : forall x, 0 <= clamp01 x /\ clamp01 x <= 1).
  { intros x. unfold clamp01. split.
    - apply Q.le_max_l.
    - apply Q.max_lub; [discriminate | apply Q.le_min_l]. }
  unfold financial_score_spec, pydiv. rewrite Hden.
  destruct (Qeq_bool best_landing 0) eqn:E; simpl.
  - eexists. split; [reflexivity|].
    split; [apply Hclamp|]. split; [apply Hclamp|]. reflexivity.
  - eexists. split; [reflexivity|].
    split; [apply Hclamp|]. split; [apply Hclamp|].
    intros Hz. apply Qeq_bool_iff in Hz. congruence.
Qed.

(** * The claims on sample data *)



Lemma unrecognized_keys_dropped_witness :
  let items := [("colour", PyNone); ("trust", PyFloat 0.3%float)] in
  float_weights (Some items)
  = float_weights (Some [("trust", PyFloat 0.3%float)]) /\
  exists w, float_weights (Some items) = Ok w.
Proof.
  intros items.
  destruct (unrecognized_keys_dropped items) as (_ & _ & Hsame & Hok & _).
  split; [exact Hsame|].
  apply Hok.
  intros k v [H|[H|[]]]; injection H as <- <-.
  - vm_compute. discriminate.
  - intros _. eexists. reflexivity.
Defined.

Lemma financial_score_spec_unit_interval_witness :
  0 < 1 # 1000000000 /\
  exists v,
    financial_score_spec 0.5 (1 # 1000000000) 0 0 0 1 = Ok v /\
    0 <= v /\ v <= 1.
Proof.
  split; [reflexivity|].
  destruct (financial_score_spec_unit_interval 0.5 (1 # 1000000000) 0 0 0 1)
    as (v & Hv & H0 & H1 & _); [reflexivity|].
  exists v. auto.
Defined.

Lemma best_fees_zero_fallback_witness :
  let nr := numeric_results evaluate_spec 1000 1.10 sample_providers in
  exists b, best_fees nr = Ok b /\ 0 < b /\
            forall r, In r nr -> 0 < fees r -> b <= fees r.
Proof.
  intros nr.
  destruct (best_fees_zero_fallback nr) as (b & Hb & Hpos & _).
  - eexists. split; [right; left; reflexivity | reflexivity].
  - intros r [<-|[<-|[]]]; vm_compute; discriminate.
  - exists b. split; [exact Hb|].
    destruct Hpos as (Hb0 & _ & Hmin).
    + eexists. split; [left; reflexivity | reflexivity].
    + auto.
Defined.

Lemma ranked_descending_stable_witness :
  exists resp,
    quote_spec sample_rates sample_providers (sample_request (Some 3%Z) None)
    = Ok resp /\
    map (fun s => code (numeric s)) (results resp) = ["P1"; "P2"] /\
    StronglySorted descending (results resp).
Proof.
  eexists. split; [reflexivity|]. split; [reflexivity|].
  refine (proj1 (ranked_descending_stable evaluate_spec (normalize_spec 0 100)
                   financial_score_total sample_rates sample_providers
                   (sample_request (Some 3%Z) None) _ _)).
  reflexivity.
Defined.


Lemma top_n_length_witness :
  exists resp,
    quote_spec sample_rates sample_providers (sample_request (Some 1%Z) None)
    = Ok resp /\
    (0 < 1)%Z /\
    List.length (results resp) = Nat.min 1 2 /\
    map (fun s => code (numeric s)) (results resp) = ["P1"].
Proof.
  eexists. split; [vm_compute; reflexivity|]. split; [reflexivity|].
  split; [|reflexivity].
  refine (proj1 (top_n_length evaluate_spec (normalize_spec 0 100)
                   financial_score_total sample_rates sample_providers
                   (sample_request (Some 1%Z) None) _ 1%Z _ _ _));
    vm_compute; reflexivity.
Defined.

Lemma invalid_input_rejected_witness :
  let bad_amount :=
    {| from_currency := "usd"; to_currency := "eur"; amount := 0;
       criteria := None; top_n := Some 3%Z; req_weights := None |} in
  let bad_pair :=
    {| from_currency := "usd"; to_currency := "xyz"; amount := 1000;
       criteria := None; top_n := Some 3%Z; req_weights := None |} in
  quote_spec sample_rates sample_providers bad_amount
  = Raise (HTTPException 400 "amount must be > 0") /\
  quote_spec sample_rates [] (sample_request (Some 3%Z) None)
  = Raise (HTTPException 500 "no providers available") /\
  quote_spec sample_rates sample_providers bad_pair
  = Raise (HTTPException 400 "currency pair USD->XYZ not available").
Proof.
  intros bad_amount bad_pair. split; [|split].
  - refine (proj1 (invalid_input_rejected evaluate_spec (normalize_spec 0 100)
                     financial_score_total sample_rates sample_providers
                     bad_amount) _).
    vm_compute. discriminate.
  - refine (proj1 (proj2 (invalid_input_rejected evaluate_spec
                            (normalize_spec 0 100) financial_score_total
                            sample_rates [] (sample_request (Some 3%Z) None)))
              _ _); reflexivity.
  - refine (proj2 (proj2 (invalid_input_rejected evaluate_spec
                            (normalize_spec 0 100) financial_score_total
                            sample_rates sample_providers bad_pair))
              _ _ _); [reflexivity | discriminate | reflexivity].
Defined.


Lemma ranking_deterministic_witness :
  let other_rates := fun _ : string => [("GBP", 1.10)] in
  let other_request :=
    {| from_currency := "cad"; to_currency := "gbp"; amount := 1000;
       criteria := None; top_n := Some 3%Z; req_weights := None |} in
  exists resp1 resp2,
    quote_spec sample_rates sample_providers (sample_request (Some 3%Z) None)
    = Ok resp1 /\
    quote_spec other_rates sample_providers other_request = Ok resp2 /\
    results resp1 = results resp2.
Proof.
  intros other_rates other_request.
  pose proof (ranking_deterministic evaluate_spec (normalize_spec 0 100)
                financial_score_total sample_rates other_rates
                sample_providers (sample_request (Some 3%Z) None)
                other_request 1.10
                eq_refl eq_refl eq_refl eq_refl eq_refl) as H.
  fold (quote_spec sample_rates sample_providers
          (sample_request (Some 3%Z) None)) in H.
  fold (quote_spec other_rates sample_providers other_request) in H.
  destruct (quote_spec sample_rates sample_providers
              (sample_request (Some 3%Z) None)) as [resp1|e1] eqn:E1;
    [|discriminate E1].
  destruct (quote_spec other_rates sample_providers other_request)
    as [resp2|e2]; [|contradiction].
  exists resp1, resp2. repeat split. apply H.
Defined.

(** * Further properties of the /quote handler *)

Lemma slice_to_length_cases {A : Type} (l : list A) (n : option Z) :
  List.length (slice_to l n)
  = match n with
    | None => List.length l
    | Some n =>
        if (n <? 0)%Z
        then Z.to_nat (Z.of_nat (List.length l) + n)
        else Nat.min (Z.to_nat n) (List.length l)
    end.
Proof.
  destruct n as [n|]; simpl; [|reflexivity].
  destruct (n <? 0)%Z eqn:E; rewrite length_firstn; [|reflexivity].
  apply Z.ltb_lt in E. lia.
Qed.

Lemma find_map {A B : Type} (g : A -> B) (f : B -> bool) (l : list A) :
  find f (map g l) = option_map g (find (fun a => f (g a)) l).
Proof.
  induction l as [|a l IH]; simpl; [reflexivity|].
  destruct (f (g a)); [reflexivity | exact IH].
Qed.

Lemma Forall2_map_eq {A B C : Type} (f : A -> C) (g : B -> C)
    (l1 : list A) (l2 : list B) :
  Forall2 (fun a b => g b = f a) l1 l2 -> map g l2 = map f l1.
Proof.
  induction 1 as [|a b l1 l2 H _ IH]; simpl; [reflexivity|].
  now rewrite H, IH.
Qed.

Lemma StronglySorted_before {A : Type} (R : A -> A -> Prop)
    (l1 l2 l3 : list A) (a b : A) :
  StronglySorted R (l1 ++ a :: l2 ++ b :: l3)%list -> R a b.
Proof.
  induction l1 as [|x l1 IH]; simpl; intros H.
  - inversion H as [|? ? _ Hf]; subst.
    rewrite Forall_forall in Hf. apply Hf.
    apply in_or_app. right. now left.
  - inversion H; subst. now apply IH.
Qed.



Section QuoteEdges.

Context {FeeRules FeeBreakdown : Type}.
Variable compute_for_provider : Q -> Q -> FeeRules -> FeeModelResult FeeBreakdown.
Variable _normalize : Q -> Q.
Variable compute_financial_score : Q -> Q -> Q -> Q -> Q.
Variable get_live_rates : string -> dict Q.

Implicit Types (p : Provider FeeRules) (providers : list (Provider FeeRules)).
Implicit Types (s : Scored FeeBreakdown) (req : QuoteRequest).
Implicit Types (resp : QuoteResponse FeeBreakdown).

(** X1.  The number of results for every value of [top_n]: all candidates
    when it is absent, none when it is 0, and for a negative [top_n] the
    candidates minus the last [-top_n] of the ranking. *)
Theorem results_length_all_top_n providers req resp :
  quote compute_for_provider _normalize compute_financial_score
    get_live_rates providers req = Ok resp ->
  List.length (results resp)
  = match top_n req with
    | None => List.length providers
    | Some n =>
        if (n <? 0)%Z
        then Z.to_nat (Z.of_nat (List.length providers) + n)
        else Nat.min (Z.to_nat n) (List.length providers)
    end.
Proof.
  intros H.
  apply quote_inv in H
    as (_ & _ & _ & _ & bl & bf & aug & _ & _ & _ & Hall & Hres).
  rewrite Hres, slice_to_length_cases.
  unfold results_sorted. rewrite sorted_length.
  now rewrite (Forall2_length Hall).
Qed.

(** X2.  Without a [top_n] no provider is dropped and none is invented:
    the codes of the results are a rearrangement of the codes of the
    providers. *)
Theorem results_permute_providers providers req resp :
  quote compute_for_provider _normalize compute_financial_score
    get_live_rates providers req = Ok resp ->
  top_n req = None ->
  Permutation (map (fun s => code (numeric s)) (results resp))
              (map Provider_code providers).
Proof.
  intros H Hn.
  apply quote_inv in H
    as (_ & _ & _ & _ & bl & bf & aug & _ & _ & _ & Hall & Hres).
  rewrite Hres, Hn. simpl.
  eapply perm_trans; [apply Permutation_map, results_sorted_perm|].
  erewrite Forall2_map_eq; [apply Permutation_refl|].
  eapply Forall2_impl; [|exact Hall].
  intros p s Hs. simpl. eapply scored_as_code, Hs.
Qed.

(** X3.  The fee data of a result is that of the first provider in the list
    carrying its code (line 106): with a repeated code the later provider is
    reported with the id, landing and fees of the earlier one. *)
Theorem result_data_from_first_match providers req resp :
  quote compute_for_provider _normalize compute_financial_score
    get_live_rates providers req = Ok resp ->
  forall s, In s (results resp) ->
    exists p0,
      find (fun q => String.eqb (Provider_code q) (code (numeric s))) providers
      = Some p0 /\
      numeric_results compute_for_provider (amount req) (resp_rate resp) [p0]
      = [numeric s].
Proof.
  intros H s Hs.
  apply quote_inv in H
    as (_ & _ & _ & _ & bl & bf & aug & _ & _ & _ & Hall & Hres).
  destruct (Forall2_In_r _ _ _ s Hall) as (p & _ & Hp).
  { eapply top_In; eassumption. }
  pose proof (scored_as_code _ _ _ _ _ _ _ _ Hp) as Hcode.
  destruct Hp as (w1 & w2 & w3 & w4 & w5 & w6 & _ & _ & _ & _ & _ & _ & Hf & _).
  unfold numeric_results in Hf. rewrite find_map in Hf. simpl in Hf.
  rewrite Hcode.
  destruct (find _ providers) as [p0|]; [|discriminate].
  exists p0. split; [reflexivity|].
  simpl in Hf. injection Hf as <-. reflexivity.
Qed.

(** X4.  Sorting on the rounded score misorders by less than the rounding
    step: when [s1] is listed before [s2], whatever unrounded composites
    [c1] and [c2] their scores were rounded from, [c2] exceeds [c1] by at
    most 10^-6. *)
Theorem ranking_within_rounding providers req resp
    (l1 l2 l3 : list (Scored FeeBreakdown)) s1 s2 (c1 c2 : Q) :
  quote compute_for_provider _normalize compute_financial_score
    get_live_rates providers req = Ok resp ->
  results resp = (l1 ++ s1 :: l2 ++ s2 :: l3)%list ->
  composite_score s1 = round6 c1 ->
  composite_score s2 = round6 c2 ->
  c2 <= c1 + (1 # 1000000).
Proof.
  intros H Hl H1 H2.
  apply quote_inv in H
    as (_ & _ & _ & _ & bl & bf & aug & _ & _ & _ & _ & Hres).
  pose proof (top_descending _ _ _ Hres) as Hsorted.
  rewrite Hl in Hsorted. apply StronglySorted_before in Hsorted.
  unfold descending in Hsorted. rewrite H1, H2 in Hsorted.
  pose proof (round6_close c1) as Hc1. pose proof (round6_close c2) as Hc2.
  apply Qabs_Qle_condition in Hc1, Hc2.
  lra.
Qed.

End QuoteEdges.

(** * Further properties of the aggregates *)

Lemma fold_max_spec (xs : list Q) :
  forall x,
    let m := fold_left (fun m y => if Qlt_le_dec m y then y else m) xs x in
    In m (x :: xs) /\ forall y, In y (x :: xs) -> y <= m.
Proof.
  induction xs as [|z xs IH]; intros x; simpl.
  - split; [now left|]. intros y [<-|[]]. apply Qle_refl.
  - destruct (Qlt_le_dec x z) as [Hlt|Hle].
    + destruct (IH z) as [Hin Hmax]. split.
      * right. exact Hin.
      * intros y [<-|Hy]; [|now apply Hmax].
        apply Qle_trans with z; [now apply Qlt_le_weak | apply Hmax; now left].
    + destruct (IH x) as [Hin Hmax]. split.
      * destruct Hin as [Hin|Hin]; [now left | right; now right].
      * intros y [<-|[<-|Hy]].
        -- apply Hmax. now left.
        -- apply Qle_trans with x; [exact Hle | apply Hmax; now left].
        -- apply Hmax. now right.
Qed.

Section AggregateEdges.

Context {FeeBreakdown : Type}.
Implicit Types (nr : list (NumericResult FeeBreakdown)).

(** X5.  [best_landing] of a non-empty pool is the largest landing amount
    of the pool: it is reached by a candidate and no candidate exceeds
    it. *)
Theorem best_landing_is_max nr :
  nr <> [] ->
  exists m,
    best_landing nr = Ok m /\
    (exists r, In r nr /\ landing r = m) /\
    forall r, In r nr -> landing r <= m.
Proof.
  intros Hne. destruct nr as [|r0 nr']; [congruence|].
  unfold best_landing, pymax. simpl map.
  destruct (fold_max_spec (map landing nr') (landing r0)) as [Hin Hmax].
  eexists. split; [reflexivity|]. split.
  - change (landing r0 :: map landing nr') with (map landing (r0 :: nr')) in Hin.
    apply in_map_iff in Hin as (r & Hr & Hrin). eauto.
  - intros r Hr. apply Hmax.
    change (landing r0 :: map landing nr') with (map landing (r0 :: nr')).
    now apply in_map.
Qed.

(** X6.  [best_fees] is never 0, for any pool, so it can serve as the
    baseline of a ratio: it is a fee of the pool or the constant 1. *)
Theorem best_fees_never_zero nr :
  exists b,
    best_fees nr = Ok b /\ ~ b == 0 /\ (b = 1 \/ In b (map fees nr)).
Proof.
  unfold best_fees.
  assert (Hfallback :
            exists b,
              pymin (map fees (filter (fun r => negb (Qle_bool (fees r) 0)) nr))
                    (Some 1) = Ok b /\
              ~ b == 0 /\ (b = 1 \/ In b (map fees nr))).
  { destruct (filter (fun r => negb (Qle_bool (fees r) 0)) nr)
      as [|r2 pos'] eqn:Epos.
    - exists 1. split; [reflexivity|]. split; [discriminate | now left].
    - destruct (pymin_spec (map fees (r2 :: pos')) (Some 1))
        as (b & Hb & Hbin & _); [discriminate|].
      exists b. split; [exact Hb|].
      rewrite <- Epos in Hbin.
      apply in_map_iff in Hbin as (rb & <- & Hrb).
      apply positive_fee_filter in Hrb as [Hrb Hpos].
      split.
      + intros Hz. rewrite Hz in Hpos. now apply (Qlt_irrefl 0).
      + right. now apply in_map. }
  destruct nr as [|r1 nr'].
  - simpl bind. exact Hfallback.
  - destruct (pymin_spec (map fees (r1 :: nr')) None) as (m & -> & Hin & _);
      [discriminate|].
    simpl bind.
    destruct (Qeq_bool m 0) eqn:E; [exact Hfallback|].
    exists m. split; [reflexivity|]. split; [|now right].
    intros Hz. apply Qeq_bool_iff in Hz. congruence.
Qed.

(** X7.  The zero fallback applies to a zero minimum only: when every fee
    is positive, or some fee is negative, [best_fees] is the lowest fee of
    the pool as it stands. *)
Theorem best_fees_is_min nr :
  nr <> [] ->
  (forall r, In r nr -> 0 < fees r) \/ (exists r, In r nr /\ fees r < 0) ->
  exists b,
    best_fees nr = Ok b /\
    (exists r, In r nr /\ fees r = b) /\
    forall r, In r nr -> b <= fees r.
Proof.
  intros Hne Hsign. unfold best_fees.
  destruct (pymin_spec (map fees nr) None) as (m & Hm & Hin & Hmin).
  { destruct nr; [congruence | discriminate]. }
  destruct nr as [|r1 nr'] eqn:Enr; [congruence|]. rewrite <- Enr in *.
  rewrite Hm. simpl bind.
  assert (Hnz : Qeq_bool m 0 = false).
  { destruct (Qeq_bool m 0) eqn:E; [|reflexivity].
    apply Qeq_bool_iff in E. exfalso.
    destruct Hsign as [Hpos|(r & Hr & Hneg)].
    - apply in_map_iff in Hin as (r & Hr & Hrin).
      specialize (Hpos r Hrin). rewrite Hr, E in Hpos.
      now apply (Qlt_irrefl 0).
    - assert (Hle : m <= fees r) by (apply Hmin; now apply in_map).
      rewrite E in Hle. now apply (Qlt_not_le _ _ Hneg). }
  rewrite Hnz. exists m. split; [reflexivity|]. split.
  - apply in_map_iff in Hin as (r & Hr & Hrin). eauto.
  - intros r Hr. apply Hmin. now apply in_map.
Qed.

End AggregateEdges.

(** * Further properties of the weights *)

Lemma float_raise_kinds (v : pyvalue) (e : exn) :
  float v = Raise e ->
  e = ValueError \/ e = OverflowError \/ e = Builtin TypeError.
Proof.
  destruct v as [x | n | b | s [x|] | | |]; simpl; try discriminate;
    try (intros [= <-]; tauto).
  unfold float_of_int.
  destruct (binary_normalize prec emax n 0 false); try discriminate.
  intros [= <-]. tauto.
Qed.

Lemma merge_items_raise (items : dict pyvalue) :
  forall d e,
    merge_items d items = Raise e ->
    exists k v, In (k, v) items /\ dict_mem d k = true /\ float v = Raise e.
Proof.
  induction items as [|[k v] items IH]; simpl; intros d e H; [discriminate|].
  destruct (dict_mem d k) eqn:E.
  - destruct (float v) as [x|e'] eqn:Ef; simpl in H.
    + apply IH in H as (k' & v' & Hin & Hmem & Hf).
      exists k', v'. split; [now right|]. split; [|exact Hf].
      rewrite <- Hmem. symmetry. apply dict_mem_ext, dict_set_keys.
    + injection H as <-. exists k, v. split; [now left|]. auto.
  - apply IH in H as (k' & v' & Hin & Hmem & Hf).
    exists k', v'. split; [now right|]. auto.
Qed.

Lemma float_weights_raise (rw : option (dict pyvalue)) (e : exn) :
  float_weights rw = Raise e ->
  exists items k v,
    rw = Some items /\ In (k, v) items /\
    dict_mem default_weights k = true /\ float v = Raise e.
Proof.
  unfold float_weights. intros H.
  destruct rw as [[|kv rest]|]; try discriminate.
  destruct (merge_items default_weights (kv :: rest)) as [merged|e'] eqn:Em;
    [discriminate|].
  simpl in H. injection H as <-.
  apply merge_items_raise in Em as (k & v & Hin & Hmem & Hf).
  exists (kv :: rest), k, v. auto.
Qed.

Lemma rationals_raise (d : dict binary64) (e : exn) :
  rationals d = Raise e ->
  e = NonFinite /\ exists k x, In (k, x) d /\ exact x = None.
Proof.
  induction d as [|[k x] d IH]; simpl; intros H; [discriminate|].
  unfold rational in H. destruct (exact x) as [q|] eqn:Ex; simpl in H.
  - destruct (rationals d) as [rest|e']; simpl in H; [discriminate|].
    injection H as <-. destruct IH as (-> & k' & x' & Hin & Hx); [reflexivity|].
    split; [reflexivity|]. exists k', x'. split; [now right | exact Hx].
  - injection H as <-. split; [reflexivity|]. exists k, x.
    split; [now left | exact Ex].
Qed.


Lemma sum_nonneg (xs : list Q) : Forall (fun x => 0 <= x) xs -> 0 <= sum xs.
Proof.
  induction 1 as [|x xs Hx _ IH].
  - apply Qle_refl.
  - rewrite sum_cons. lra.
Qed.




Lemma upper_ascii_idempotent (c : ascii) :
  upper_ascii (upper_ascii c) = upper_ascii c.
Proof.
  destruct c as [[] [] [] [] [] [] [] []]; reflexivity.
Qed.

Lemma upper_idempotent (s : string) : upper (upper s) = upper s.
Proof.
  induction s as [|c s IH]; simpl; [reflexivity|].
  now rewrite upper_ascii_idempotent, IH.
Qed.

Section QuoteOutcomes.

Context {FeeRules FeeBreakdown : Type}.
Variable compute_for_provider : Q -> Q -> FeeRules -> FeeModelResult FeeBreakdown.
Variable _normalize : Q -> Q.
Variable compute_financial_score : Q -> Q -> Q -> Q -> Q.
Variable get_live_rates : string -> dict Q.

Implicit Types (p : Provider FeeRules) (providers : list (Provider FeeRules)).
Implicit Types (s : Scored FeeBreakdown) (req : QuoteRequest).
Implicit Types (resp : QuoteResponse FeeBreakdown).

(** X8.  The handler fails in these ways only: the three validation
    failures, and, once the validation has passed, the exception that
    [float(v)] raises for a recognized weight key ([ValueError], [TypeError]
    or [OverflowError]).  The weights lookups, [max], [min] and the
    division never fail.  [NonFinite] marks the remaining runs, those in
    which a resolved weight is inf or nan. *)
Theorem quote_exceptions providers req (e : exn) :
  quote compute_for_provider _normalize compute_financial_score
    get_live_rates providers req = Raise e ->
  (amount req <= 0 /\ e = HTTPException 400 "amount must be > 0") \/
  (0 < amount req /\ providers = [] /\
   e = HTTPException 500 "no providers available") \/
  (0 < amount req /\ providers <> [] /\
   dict_get (get_live_rates (upper (from_currency req)))
            (upper (to_currency req)) = None /\
   e = HTTPException 400
         ("currency pair " ++ upper (from_currency req) ++ "->"
          ++ upper (to_currency req) ++ " not available")) \/
  (0 < amount req /\ providers <> [] /\
   (exists rate,
      dict_get (get_live_rates (upper (from_currency req)))
               (upper (to_currency req)) = Some rate) /\
   ((exists items k v,
       req_weights req = Some items /\ In (k, v) items /\
       dict_mem default_weights k = true /\ float v = Raise e /\
       (e = ValueError \/ e = OverflowError \/ e = Builtin TypeError)) \/
    (e = NonFinite /\
     exists fw k x,
       float_weights (req_weights req) = Ok fw /\ In (k, x) fw /\
       exact x = None))).
Proof.
  intros H.
  destruct (Qlt_le_dec 0 (amount req)) as [Ha|Ha].
  2:{ left. split; [exact Ha|].
      unfold quote in H. apply Qle_bool_iff in Ha. rewrite Ha in H.
      now injection H as <-. }
  right.
  assert (Ea : Qle_bool (amount req) 0 = false).
  { destruct (Qle_bool (amount req) 0) eqn:E; [|reflexivity].
    apply Qle_bool_iff in E. exfalso. now apply (Qlt_not_le _ _ Ha). }
  destruct providers as [|p0 ps] eqn:Ep.
  { left. unfold quote in H. rewrite Ea in H. now injection H as <-. }
  right. rewrite <- Ep in *.
  assert (Hne : providers <> []) by (rewrite Ep; discriminate).
  destruct (dict_get (get_live_rates (upper (from_currency req)))
                     (upper (to_currency req))) as [rate|] eqn:Er.
  2:{ left. unfold quote in H. rewrite Ea, Er, Ep in H.
      injection H as <-. auto. }
  right.
  split; [exact Ha|]. split; [exact Hne|]. split; [eauto|].
  destruct (weights (req_weights req)) as [w|e'] eqn:Ew.
  - destruct (quote_ok compute_for_provider _normalize compute_financial_score
                get_live_rates providers req rate w Ha Hne Er Ew) as [resp Hok].
    congruence.
  - unfold quote in H. rewrite Ea, Er, Ew, Ep in H. simpl in H.
    injection H as <-.
    unfold weights in Ew.
    destruct (float_weights (req_weights req)) as [fw|e''] eqn:Ef;
      simpl in Ew.
    + right. apply rationals_raise in Ew as (-> & k & x & Hin & Hx).
      split; [reflexivity|]. exists fw, k, x. auto.
    + left. injection Ew as <-.
      apply float_weights_raise in Ef as (items & k & v & Hrw & Hin & Hmem & Hf).
      exists items, k, v.
      repeat (split; [assumption|]).
      eapply float_raise_kinds, Hf.
Qed.

(** X9.  The answer does not depend on the letter case of the currency
    codes, nor on the [criteria] list: two requests whose codes agree once
    upper-cased and that agree on the amount, [top_n] and the weights get
    the same outcome, field for field. *)
Theorem quote_case_insensitive providers req req' :
  upper (from_currency req) = upper (from_currency req') ->
  upper (to_currency req) = upper (to_currency req') ->
  amount req = amount req' ->
  top_n req = top_n req' ->
  req_weights req = req_weights req' ->
  quote compute_for_provider _normalize compute_financial_score
    get_live_rates providers req
  = quote compute_for_provider _normalize compute_financial_score
      get_live_rates providers req'.
Proof.
  intros Hf Ht Ha Hn Hw. unfold quote.
  now rewrite Hf, Ht, Ha, Hn, Hw.
Qed.


End QuoteOutcomes.

(** * Properties of the /ai/recommend handler *)

Section AiRecommendFacts.

Context {ModelResults Merged : Type}.
Variable str : json -> string.
Variable call_all_models : string -> ModelResults.
Variable deterministic_merge : ModelResults -> Merged.

Lemma summary_line_object (to_cur : json) (d : dict json) :
  exists line, summary_line str to_cur (JObj d) = Returns line.
Proof. unfold summary_line. simpl. eauto. Qed.

Lemma summary_line_not_object (to_cur r : json) :
  (forall d, r <> JObj d) -> summary_line str to_cur r = Throws AttributeError.
Proof.
  intros H. destruct r; try reflexivity. now destruct (H fields).
Qed.

Lemma append_lines_objects (to_cur : json) (rs : list json) :
  forall acc,
    Forall (fun r => exists d, r = JObj d) rs ->
    exists lines,
      append_lines str to_cur acc rs = Returns lines /\
      List.length lines = (List.length acc + List.length rs)%nat.
Proof.
  induction rs as [|r rs IH]; intros acc H; simpl.
  - exists acc. split; [reflexivity | lia].
  - inversion H as [|? ? [d ->] Hrest]; subst.
    destruct (summary_line_object to_cur d) as [line ->].
    destruct (IH (acc ++ [line])%list Hrest) as (lines & -> & Hlen).
    exists lines. split; [reflexivity|].
    rewrite Hlen, length_app. simpl. lia.
Qed.

Lemma append_lines_not_objects (to_cur : json) (rs : list json) :
  forall acc,
    ~ Forall (fun r => exists d, r = JObj d) rs ->
    append_lines str to_cur acc rs = Throws AttributeError.
Proof.
  induction rs as [|r rs IH]; intros acc H; simpl.
  - exfalso. apply H. constructor.
  - destruct r as [| b | q | s | items | d];
      try reflexivity.
    destruct (summary_line_object to_cur d) as [line ->].
    apply IH. intros Hrest. apply H. constructor; eauto.
Qed.


(** X11.  The handler succeeds exactly when the payload's [results] can be
    iterated and every item is a dict; a missing [from], [to], [amount],
    [code], [landing], [fees] or [effective_rate] never makes it fail.  The
    summary then has the header and one line per result.  A [results] that
    cannot be iterated gives [TypeError], an item that is not a dict
    [AttributeError]. *)
Theorem ai_recommend_outcome (req : AIRequest) :
  let results := get_default (quote_payload req) "results" (JArr []) in
  (forall rs,
     iterate results = Returns rs ->
     Forall (fun r => exists d, r = JObj d) rs ->
     exists lines out,
       summary_lines str req = Returns lines /\
       List.length lines = S (List.length rs) /\
       ai_recommend str call_all_models deterministic_merge req = Returns out) /\
  (forall rs,
     iterate results = Returns rs ->
     ~ Forall (fun r => exists d, r = JObj d) rs ->
     ai_recommend str call_all_models deterministic_merge req
     = Throws AttributeError) /\
  (forall e,
     iterate results = Throws e ->
     e = TypeError /\
     ai_recommend str call_all_models deterministic_merge req = Throws TypeError).
Proof.
  intros results.
  assert (Hq : match quote_payload req with
               | [] => []
               | _ :: _ => quote_payload req
               end = quote_payload req) by (destruct (quote_payload req); reflexivity).
  split; [|split].
  - intros rs Hit Hall.
    unfold ai_recommend, summary_lines. rewrite Hq. fold results. rewrite Hit.
    match goal with
    | |- context [append_lines str ?t ?acc rs] =>
        destruct (append_lines_objects t rs acc Hall) as (lines & -> & Hlen)
    end.
    eexists. eexists. split; [reflexivity|]. split; [exact Hlen | reflexivity].
  - intros rs Hit Hnot.
    unfold ai_recommend, summary_lines. rewrite Hq. fold results. rewrite Hit.
    now rewrite append_lines_not_objects.
  - intros e Hit.
    assert (He : e = TypeError).
    { destruct results; simpl in Hit; try discriminate; now injection Hit as <-. }
    subst e. split; [reflexivity|].
    unfold ai_recommend, summary_lines. rewrite Hq. fold results.
    now rewrite Hit.
Qed.


End AiRecommendFacts.

(** * The further properties on sample data *)



Lemma results_length_all_top_n_witness :
  exists resp,
    quote_spec sample_rates sample_providers (sample_request (Some (-1)%Z) None)
    = Ok resp /\
    List.length (results resp) = 1%nat.
Proof.
  eexists. split; [vm_compute; reflexivity|].
  refine (results_length_all_top_n evaluate_spec (normalize_spec 0 100)
            financial_score_total sample_rates sample_providers
            (sample_request (Some (-1)%Z) None) _ _).
  reflexivity.
Defined.

Lemma results_permute_providers_witness :
  exists resp,
    quote_spec sample_rates sample_providers (sample_request None None)
    = Ok resp /\
    Permutation (map (fun s => code (numeric s)) (results resp)) ["P1"; "P2"].
Proof.
  eexists. split; [vm_compute; reflexivity|].
  refine (results_permute_providers evaluate_spec (normalize_spec 0 100)
            financial_score_total sample_rates sample_providers
            (sample_request None None) _ _ _); reflexivity.
Defined.

Lemma result_data_from_first_match_witness :
  exists resp,
    quote_spec sample_rates same_code_providers (sample_request None None)
    = Ok resp /\
    map (fun s => provider_id (numeric s)) (results resp) = [1; 1]%Z /\
    forall s, In s (results resp) ->
      exists p0,
        find (fun q => String.eqb (Provider_code q) (code (numeric s)))
             same_code_providers = Some p0 /\
        numeric_results evaluate_spec 1000 1.10 [p0] = [numeric s].
Proof.
  eexists. split; [vm_compute; reflexivity|]. split; [reflexivity|].
  refine (result_data_from_first_match evaluate_spec (normalize_spec 0 100)
            financial_score_total sample_rates same_code_providers
            (sample_request None None) _ _).
  reflexivity.
Defined.

Lemma ranking_within_rounding_witness :
  exists resp s1 s2,
    quote_spec sample_rates close_providers (sample_request None None)
    = Ok resp /\
    results resp = [s1; s2] /\
    composite_score s1 = round6 0.9 /\
    composite_score s2 = round6 0.900000005 /\
    0.900000005 <= 0.9 + (1 # 1000000).
Proof.
  eexists. eexists. eexists.
  split; [vm_compute; reflexivity|]. split; [vm_compute; reflexivity|].
  split; [vm_compute; reflexivity|]. split; [vm_compute; reflexivity|].
  refine (ranking_within_rounding evaluate_spec (normalize_spec 0 100)
            financial_score_total sample_rates close_providers
            (sample_request None None) _ [] [] [] _ _ 0.9 0.900000005
            _ _ _ _); vm_compute; reflexivity.
Defined.

Lemma best_landing_is_max_witness :
  let nr := numeric_results evaluate_spec 1000 1.10 sample_providers in
  nr <> [] /\
  exists m, best_landing nr = Ok m /\ forall r, In r nr -> landing r <= m.
Proof.
  intros nr. split; [discriminate|].
  destruct (best_landing_is_max nr) as (m & Hm & _ & Hmax); [discriminate|].
  exists m. auto.
Defined.

Lemma best_fees_is_min_witness :
  let nr := numeric_results evaluate_spec 1000 1.10 paying_providers in
  exists b, best_fees nr = Ok b /\ forall r, In r nr -> b <= fees r.
Proof.
  intros nr.
  destruct (best_fees_is_min nr) as (b & Hb & _ & Hmin).
  - discriminate.
  - left. intros r [<-|[<-|[]]]; reflexivity.
  - exists b. auto.
Defined.

Lemma quote_exceptions_witness :
  let req := sample_request (Some 3%Z) (Some [("trust", PyNone)]) in
  quote_spec sample_rates sample_providers req = Raise (Builtin TypeError) /\
  exists items k v,
    req_weights req = Some items /\ In (k, v) items /\
    dict_mem default_weights k = true /\ float v = Raise (Builtin TypeError).
Proof.
  intros req. split; [reflexivity|].
  destruct (quote_exceptions evaluate_spec (normalize_spec 0 100)
              financial_score_total sample_rates sample_providers req
              (Builtin TypeError) eq_refl)
    as [(_ & He)|[(_ & _ & He)|[(_ & _ & _ & He)|(_ & _ & _ & Hw)]]];
    try discriminate He.
  destruct Hw as [(items & k & v & H1 & H2 & H3 & H4 & _)|(He & _)];
    [|discriminate He].
  exists items, k, v. auto.
Defined.

Lemma quote_case_insensitive_witness :
  let req' :=
    {| from_currency := "USD"; to_currency := "Eur"; amount := 1000;
       criteria := None; top_n := Some 3%Z; req_weights := None |} in
  quote_spec sample_rates sample_providers (sample_request (Some 3%Z) None)
  = quote_spec sample_rates sample_providers req'.
Proof.
  intros req'.
  refine (quote_case_insensitive evaluate_spec (normalize_spec 0 100)
            financial_score_total sample_rates sample_providers
            (sample_request (Some 3%Z) None) req' _ _ _ _ _); reflexivity.
Defined.


Lemma ai_recommend_outcome_witness :
  let call := fun prompt : string => [prompt] in
  let merge := fun answers : list string => String.concat "" answers in
  (exists out,
     ai_recommend sample_str call merge (sample_ai_request (sample_payload []))
     = Returns out) /\
  ai_recommend sample_str call merge
    (sample_ai_request [("results", JArr [JNum 1])]) = Throws AttributeError /\
  ai_recommend sample_str call merge
    (sample_ai_request [("results", JNull)]) = Throws TypeError.
Proof.
  intros call merge. split; [|split].
  - destruct (proj1 (ai_recommend_outcome sample_str call merge
                       (sample_ai_request (sample_payload []))) _ eq_refl)
      as (lines & out & _ & _ & Hout).
    + repeat constructor. eexists. reflexivity.
    + exists out. exact Hout.
  - refine (proj1 (proj2 (ai_recommend_outcome sample_str call merge
                            (sample_ai_request [("results", JArr [JNum 1])])))
              _ eq_refl _).
    intros H. inversion H as [|? ? [d Hd] _]. discriminate Hd.
  - refine (proj2 (proj2 (proj2 (ai_recommend_outcome sample_str call merge
                                   (sample_ai_request [("results", JNull)])))
                     TypeError eq_refl)).
Defined.


Section QuoteAnswers.

Context {FeeRules FeeBreakdown : Type}.
Variable compute_for_provider : Q -> Q -> FeeRules -> FeeModelResult FeeBreakdown.
Variable _normalize : Q -> Q.
Variable compute_financial_score : Q -> Q -> Q -> Q -> Q.
Variable get_live_rates : string -> dict Q.


End QuoteAnswers.

